(** * Reddit_MLOPS: the fetch orchestration of the historic pull, the DAG tasks
      and the Lambda entry point, embedded from the Python sources.

    Sources embedded:
    - [scripts/historic_reddit_data_pull.py]: [get_date_range],
      [upload_to_s3], [download_subreddit_by_date];
    - [dags/reddit_scraper_dag.py]: [fetch_reddit_data], [upload_to_s3];
    - [lambda/reddit_pipeline/lambda_function.py]: [run_pipeline],
      [lambda_handler].

    Modelling conventions.
    - A naive [datetime] is the number of microseconds since 1970-01-01
      00:00:00 on the naive time line (the local zone is taken to be UTC), a
      [Z] between [MINDT] (0001-01-01) and [MAXDT] (9999-12-31
      23:59:59.999999); arithmetic that leaves the range raises
      [OverflowError] as in Python.
    - [created_utc] of a submission is given in microseconds, the instant
      [datetime.fromtimestamp] yields for the float of the API.
    - The remote services (Reddit, Pushshift, S3) are functions giving the
      response of each call; an exception is a value of [exn]; every one of
      them is a subclass of Python's [Exception].
    - Effects: a state and error monad [M] over the [world], which holds the
      blob store and the trace of outbound calls and log lines.
    - [time.sleep] and progress [print]s have no effect on the results and
      are left out; error and no-data log lines are kept in the trace. *)

From Stdlib Require Import ZArith List String Ascii Bool Lia QArith.
From stdpp Require Import base gmap strings list pretty.
Import ListNotations.
Open Scope string_scope.
Open Scope list_scope.
Open Scope Z_scope.

(** ** Exceptions and results *)

Inductive exn : Type :=
| OAuthException        (* prawcore: invalid credentials, 401 *)
| Forbidden             (* prawcore: 403 *)
| NotFound              (* prawcore: 404, e.g. a deleted submission *)
| RequestException      (* prawcore / requests: network failure *)
| TooManyRequests       (* prawcore: quota *)
| ClientError           (* botocore *)
| KeyError              (* missing environment variable or Airflow Variable *)
| OverflowError         (* datetime arithmetic out of range *)
| ValueError            (* fromtimestamp: year out of range *)
| TypeError.

Inductive result (A : Type) : Type :=
| Ok (a : A)
| Raise (e : exn).
Arguments Ok {A} a.
Arguments Raise {A} e.

Definition is_auth_error (e : exn) : bool :=
  match e with
  | OAuthException | Forbidden => true
  | _ => false
  end.

Definition str_exn (e : exn) : string :=
  match e with
  | OAuthException => "invalid_grant error processing request"
  | Forbidden => "received 403 HTTP response"
  | NotFound => "received 404 HTTP response"
  | RequestException => "error with request"
  | TooManyRequests => "received 429 HTTP response"
  | ClientError => "An error occurred when calling the PutObject operation"
  | KeyError => "KeyError"
  | OverflowError => "date value out of range"
  | ValueError => "year is out of range"
  | TypeError => "TypeError"
  end.

(** ** Time *)

Definition datetime := Z.

Definition DAY : Z := 86400000000.
Definition MINDT : Z := -62135596800000000.
Definition MAXDT : Z := 253402300799999999.

Definition valid_datetime (t : datetime) : Prop := MINDT <= t <= MAXDT.

(** [d + timedelta(days=1)] *)
Definition add_one_day (d : datetime) : result datetime :=
  if (MINDT <=? d + DAY) && (d + DAY <=? MAXDT) then Ok (d + DAY)
  else Raise OverflowError.

(** [(a - b).days]: a timedelta is normalised with [0 <= seconds < 86400],
    so [days] is the floor of the quotient. *)
Definition timedelta_days (a b : datetime) : Z := (a - b) / DAY.

(** [int(d.timestamp())]: truncation towards zero of the epoch seconds. The
    conversion is taken as exact and the local zone as UTC: the rounding of
    the intermediate double and the shifts of a zone with daylight saving
    time are not modelled. *)
Definition int_timestamp (d : datetime) : Z := Z.quot d 1000000.

(** [datetime.fromtimestamp(ts)] on a value already in microseconds. *)
Definition fromtimestamp (ts : Z) : result datetime :=
  if (MINDT <=? ts) && (ts <=? MAXDT) then Ok ts else Raise ValueError.

(** *** The calendar, for [strftime('%Y%m%d')] *)

(** Days since 1970-01-01 to (year, month, day) of the proleptic Gregorian
    calendar. *)
Definition civil_from_days (days : Z) : Z * Z * Z :=
  let z := days + 719468 in
  let era := z / 146097 in
  let doe := z - era * 146097 in
  let yoe := (doe - doe / 1460 + doe / 36524 - doe / 146096) / 365 in
  let y := yoe + era * 400 in
  let doy := doe - (365 * yoe + yoe / 4 - yoe / 100) in
  let mp := (5 * doy + 2) / 153 in
  let d := doy - (153 * mp + 2) / 5 + 1 in
  let m := if mp <? 10 then mp + 3 else mp - 9 in
  (if m <=? 2 then y + 1 else y, m, d).

Definition digit (n : Z) : string :=
  String (ascii_of_nat (48 + Z.to_nat (n mod 10))) EmptyString.

Definition two_digits (n : Z) : string := digit (n / 10) +:+ digit n.

Definition four_digits (n : Z) : string :=
  digit (n / 1000) ++ digit (n / 100) ++ digit (n / 10) +:+ digit n.

Definition strftime_Ymd (d : datetime) : string :=
  let '(y, m, dd) := civil_from_days (d / DAY) in
  four_digits y +:+ two_digits m +:+ two_digits dd.

(** ** [get_date_range]

    The generator is pure: it is given by the windows it yields, in order,
    and the exception that ends the iteration, if any. *)

Definition window : Type := datetime * datetime.

Fixpoint date_range_loop (fuel : nat) (current_date end_date : datetime)
  : list window * option exn :=
  match fuel with
  | O => ([], None)
  | S fuel' =>
      if current_date <? end_date then
        match add_one_day current_date with
        | Raise e => ([], Some e)
        | Ok next_date =>
            let '(ws, e) := date_range_loop fuel' next_date end_date in
            ((current_date, next_date) :: ws, e)
        end
      else ([], None)
  end.

(** Iterations the [while] loop can make at most. *)
Definition date_range_fuel (start_date end_date : datetime) : nat :=
  Z.to_nat ((end_date - start_date) / DAY + 1).

Definition get_date_range (start_date end_date : datetime)
  : list window * option exn :=
  date_range_loop (date_range_fuel start_date end_date) start_date end_date.


(** ** Submissions and stories *)

(** The fields of a praw submission the code reads. [author] is [None] for
    a deleted account; [removed_by_category] is [None] when the post was not
    removed. *)
Record submission : Type := mkSubmission {
  sub_id : string;
  sub_title : string;
  sub_selftext : string;
  sub_author : option string;
  sub_score : Z;
  sub_created_utc : Z;
  sub_url : string;
  sub_num_comments : Z;
  sub_upvote_ratio : Q;
  sub_removed_by_category : option string
}.

(** The dictionary appended to [stories]. *)
Record story : Type := mkStory {
  title : string;
  text : string;
  author : string;
  score : Z;
  created_utc : datetime;
  url : string;
  id : string;
  num_comments : Z;
  upvote_ratio : Q
}.

(** Python truthiness of a [str]. *)
Definition truthy (s : string) : bool :=
  match s with
  | EmptyString => false
  | String _ _ => true
  end.

(** Python truthiness of an optional [str]. *)
Definition truthy_opt (o : option string) : bool :=
  match o with
  | None => false
  | Some s => truthy s
  end.

(** [str(submission.author)] *)
Definition str_author (a : option string) : string :=
  match a with
  | None => "None"
  | Some name => name
  end.

(** [not submission.removed_by_category and submission.selftext] *)
Definition eligible (s : submission) : bool :=
  negb (truthy_opt (sub_removed_by_category s)) && truthy (sub_selftext s).

Definition make_story (s : submission) (t : datetime) : story :=
  {| title := sub_title s;
     text := sub_selftext s;
     author := str_author (sub_author s);
     score := sub_score s;
     created_utc := t;
     url := sub_url s;
     id := sub_id s;
     num_comments := sub_num_comments s;
     upvote_ratio := sub_upvote_ratio s |}.

(** ** The world: blob store and trace *)

Inductive event : Type :=
| CallSubredditNew (subreddit : string) (limit : nat)
| CallSearchSubmissions (subreddit : string) (after before : Z)
| CallSubmission (submission_id : string)
| CallPutObject (bucket key : string) (body : list story)
| LogSubmissionError (submission_id : string) (e : exn)
| LogDateError (start : datetime) (e : exn)
| LogNoStories (start : datetime)
| LogUploadError (e : exn)
| LogUploadStatus (status : Z)
| LogFetchError (e : exn)
| LogPipelineFailed (e : exn).

(** The store maps a key to the JSON document stored under it, given by
    the records it lists. *)
Record world : Type := mkWorld {
  store : gmap string (list story);
  trace : list event
}.

Definition M (A : Type) : Type := world -> world * result A.

Definition ret {A} (a : A) : M A := fun w => (w, Ok a).

Definition bind {A B} (m : M A) (k : A -> M B) : M B :=
  fun w =>
    match m w with
    | (w', Ok a) => k a w'
    | (w', Raise e) => (w', Raise e)
    end.

Definition raise {A} (e : exn) : M A := fun w => (w, Raise e).

(** [try: m  except Exception as e: h e] *)
Definition try_except {A} (m : M A) (h : exn -> M A) : M A :=
  fun w =>
    match m w with
    | (w', Ok a) => (w', Ok a)
    | (w', Raise e) => h e w'
    end.

Definition lift {A} (r : result A) : M A := fun w => (w, r).

Definition emit (ev : event) : M unit :=
  fun w => (mkWorld (store w) (trace w ++ [ev]), Ok tt).

Definition store_blob (key : string) (body : list story) : M unit :=
  fun w => (mkWorld (<[key := body]> (store w)) (trace w), Ok tt).

Notation "'do' x <- m ; k" := (bind m (fun x => k))
  (at level 10, x name, m at level 100, k at level 200).
Notation "m ;; k" := (bind m (fun _ => k))
  (at level 100, k at level 200, right associativity).

(** ** The remote services, as seen while one window is processed *)

Record services : Type := mkServices {
  (** [datetime.now()] *)
  now : datetime;
  (** [subreddit.new(limit)]: the submissions the listing yields, then the
      exception that ends the iteration, if any. *)
  subreddit_new : string -> nat -> list submission * option exn;
  (** [api.search_submissions(subreddit, after, before)] and the
      comprehension over its result: the identifiers, or an exception. *)
  search_submissions : string -> Z -> Z -> result (list string);
  (** [reddit.submission(id)], fetched on the first attribute read. *)
  fetch_submission : string -> result submission;
  (** [boto3.client('s3')] *)
  initialize_s3 : result unit;
  (** [put_object]: the HTTP status of the response, or an exception. *)
  put_object : string -> string -> result Z
}.

Module Historic.

(** Lines 150-169: the loop over the listing. *)
Fixpoint live_loop (start end_ : datetime) (subs : list submission)
  (failure : option exn) (stories : list story) : result (list story) :=
  match subs with
  | [] =>
      match failure with
      | Some e => Raise e
      | None => Ok stories
      end
  | s :: rest =>
      match fromtimestamp (sub_created_utc s) with
      | Raise e => Raise e
      | Ok submission_time =>
          if (start <=? submission_time) && (submission_time <? end_) then
            if eligible s then
              live_loop start end_ rest failure
                        (stories ++ [make_story s submission_time])
            else live_loop start end_ rest failure stories
          else live_loop start end_ rest failure stories
      end
  end.

(** Lines 146-169. *)
Definition live_pass (sv : services) (subreddit_name : string)
  (start end_ : datetime) : M (list story) :=
  if timedelta_days (now sv) start <? 90 then
    emit (CallSubredditNew subreddit_name 1000) ;;
    let '(subs, failure) := subreddit_new sv subreddit_name 1000%nat in
    lift (live_loop start end_ subs failure [])
  else ret [].

(** Lines 188-208: one identifier, under its own [try]. *)
Definition archive_item (sv : services) (submission_id : string)
  (stories : list story) : M (list story) :=
  try_except
    (emit (CallSubmission submission_id) ;;
     do s <- lift (fetch_submission sv submission_id) ;
     if eligible s then
       do t <- lift (fromtimestamp (sub_created_utc s)) ;
       ret (stories ++ [make_story s t])
     else ret stories)
    (fun e => emit (LogSubmissionError submission_id e) ;; ret stories).

(** Lines 187-208. *)
Fixpoint archive_loop (sv : services) (submission_ids : list string)
  (stories : list story) : M (list story) :=
  match submission_ids with
  | [] => ret stories
  | submission_id :: rest =>
      do stories' <- archive_item sv submission_id stories ;
      archive_loop sv rest stories'
  end.

(** Lines 172-208. *)
Definition archive_pass (sv : services) (subreddit_name : string)
  (start end_ : datetime) (stories : list story) : M (list story) :=
  match stories with
  | [] =>
      let start_timestamp := int_timestamp start in
      let end_timestamp := int_timestamp end_ in
      emit (CallSearchSubmissions subreddit_name start_timestamp end_timestamp) ;;
      do submission_ids <-
        lift (search_submissions sv subreddit_name start_timestamp end_timestamp) ;
      archive_loop sv submission_ids stories
  | _ :: _ => ret stories
  end.

(** Lines 82-128. The code only prints on the status of the response; that
    the document is in the store when S3 answers 200, and not otherwise, is
    what the model takes of S3. *)
Definition upload_to_s3 (sv : services) (df : list story)
  (bucket_name subreddit_name date_str : string) : M unit :=
  lift (initialize_s3 sv) ;;
  let json_str := df in
  let s3_path := "reddit_data/" +:+ subreddit_name +:+ "/" +:+ date_str +:+ ".json" in
  try_except
    (emit (CallPutObject bucket_name s3_path json_str) ;;
     do status <- lift (put_object sv bucket_name s3_path) ;
     (if status =? 200 then store_blob s3_path json_str else ret tt) ;;
     emit (LogUploadStatus status))
    (fun e => emit (LogUploadError e)).

(** Lines 210-217. *)
Definition emit_batch (sv : services) (bucket_name subreddit_name : string)
  (start : datetime) (stories : list story) : M unit :=
  match stories with
  | _ :: _ =>
      let df := stories in
      let date_str := strftime_Ymd start in
      upload_to_s3 sv df bucket_name subreddit_name date_str
  | [] => emit (LogNoStories start)
  end.

(** Lines 140-226: the body of the loop over the windows. *)
Definition process_window (sv : services) (subreddit_name bucket_name : string)
  (w : window) : M unit :=
  let '(start, end_) := w in
  try_except
    (do stories <- live_pass sv subreddit_name start end_ ;
     do stories <- archive_pass sv subreddit_name start end_ stories ;
     emit_batch sv bucket_name subreddit_name start stories)
    (fun e => emit (LogDateError start e)).

(** The loop over the windows the generator yields; the services answer
    according to the window being processed. *)
Fixpoint process_windows (env : datetime -> services)
  (subreddit_name bucket_name : string) (ws : list window) : M unit :=
  match ws with
  | [] => ret tt
  | w :: rest =>
      process_window (env (fst w)) subreddit_name bucket_name w ;;
      process_windows env subreddit_name bucket_name rest
  end.

(** Lines 130-226. [initialize_reddit] reads the environment and builds the
    client outside any [try]. *)
Definition download_subreddit_by_date (initialize_reddit : result unit)
  (env : datetime -> services) (subreddit_name bucket_name : string)
  (start_date end_date : datetime) : M unit :=
  lift initialize_reddit ;;
  let '(ws, failure) := get_date_range start_date end_date in
  process_windows env subreddit_name bucket_name ws ;;
  match failure with
  | Some e => raise e
  | None => ret tt
  end.

End Historic.

(** ** The DAG tasks, [dags/reddit_scraper_dag.py] *)

Module Dag.

(** What the tasks use of Airflow: [Variable.get] and the S3 hook's
    [load_string]. *)
Record airflow : Type := mkAirflow {
  variable_get : string -> result string;
  load_string : string -> string -> result unit
}.

(** Lines 42-58. [created_utc] holds [submission_time.isoformat()], a
    rendering of the same instant. *)
Fixpoint live_loop (start_date end_date : datetime) (subs : list submission)
  (failure : option exn) (stories : list story) : result (list story) :=
  match subs with
  | [] =>
      match failure with
      | Some e => Raise e
      | None => Ok stories
      end
  | s :: rest =>
      match fromtimestamp (sub_created_utc s) with
      | Raise e => Raise e
      | Ok submission_time =>
          if (start_date <=? submission_time) && (submission_time <? end_date)
          then
            if eligible s then
              live_loop start_date end_date rest failure
                        (stories ++ [make_story s submission_time])
            else live_loop start_date end_date rest failure stories
          else live_loop start_date end_date rest failure stories
      end
  end.

(** Lines 73-90: one identifier, under its own [try]. *)
Definition archive_item (sv : services) (submission_id : string)
  (stories : list story) : M (list story) :=
  try_except
    (emit (CallSubmission submission_id) ;;
     do s <- lift (fetch_submission sv submission_id) ;
     if eligible s then
       do t <- lift (fromtimestamp (sub_created_utc s)) ;
       ret (stories ++ [make_story s t])
     else ret stories)
    (fun e => emit (LogSubmissionError submission_id e) ;; ret stories).

Fixpoint archive_loop (sv : services) (submissions : list string)
  (stories : list story) : M (list story) :=
  match submissions with
  | [] => ret stories
  | submission_id :: rest =>
      do stories' <- archive_item sv submission_id stories ;
      archive_loop sv rest stories'
  end.

(** Lines 30-96. *)
Definition fetch_reddit_data (initialize_reddit : result unit) (sv : services)
  (subreddit_name : string) (start_date end_date : datetime)
  : M (list story) :=
  lift initialize_reddit ;;
  try_except
    (do stories <-
       (if timedelta_days (now sv) start_date <? 90 then
          emit (CallSubredditNew subreddit_name 1000) ;;
          let '(subs, failure) := subreddit_new sv subreddit_name 1000%nat in
          lift (live_loop start_date end_date subs failure [])
        else ret []) ;
     match stories with
     | [] =>
         let start_timestamp := int_timestamp start_date in
         let end_timestamp := int_timestamp end_date in
         emit (CallSearchSubmissions subreddit_name
                                     start_timestamp end_timestamp) ;;
         do submissions <-
           lift (search_submissions sv subreddit_name
                                    start_timestamp end_timestamp) ;
         archive_loop sv submissions stories
     | _ :: _ => ret stories
     end)
    (fun e => emit (LogFetchError e) ;; raise e).

(** Lines 98-118. *)
Definition upload_to_s3 (af : airflow) (stories : list story)
  (subreddit_name date_str : string) : M unit :=
  match stories with
  | [] => ret tt
  | _ :: _ =>
      do bucket_name <- lift (variable_get af "s3_bucket_name") ;
      let json_str := stories in
      let s3_key :=
        "reddit_data/" +:+ subreddit_name +:+ "/" +:+ date_str +:+ ".json" in
      emit (CallPutObject bucket_name s3_key json_str) ;;
      lift (load_string af bucket_name s3_key) ;;
      store_blob s3_key json_str
  end.

End Dag.

(** ** The Lambda entry point, [lambda/reddit_pipeline/lambda_function.py] *)

Module Lambda.

(** [json.dumps] of a [str]. *)
Inductive json : Type :=
| json_dumps (s : string).

Record response : Type := mkResponse {
  statusCode : Z;
  body : json
}.

Section Pipeline.

(** The methods the file leaves out ([fetch_stories], [upload_to_s3]) and
    the constructor [RedditS3Pipeline()] are taken as given, with any
    behaviour. *)
Variable fetch_stories : M (list story).
Variable upload_to_s3 : list story -> M unit.
Variable construct : result unit.

(** Lines 32-49. *)
Definition run_pipeline : M response :=
  try_except
    (do stories <- fetch_stories ;
     (match stories with
      | _ :: _ => upload_to_s3 stories
      | [] => ret tt
      end) ;;
     ret {| statusCode := 200;
            body := json_dumps ("Successfully processed "
                                +:+ pretty (length stories) +:+ " stories") |})
    (fun e =>
       emit (LogPipelineFailed e) ;;
       ret {| statusCode := 500;
              body := json_dumps ("Pipeline failed: " +:+ str_exn e) |}).

(** Lines 51-54. *)
Definition lambda_handler : M response :=
  lift construct ;;
  run_pipeline.

End Pipeline.

End Lambda.

(** ** The stand-alone pipeline, [scripts/reddit_pipeline.py]

    The class whose [run_pipeline] the Lambda entry point adapts. Its
    stories keep the raw fields of the submission, so it has a world of its
    own: a store of such documents and a trace of its calls and error
    lines. *)

(** [strftime('%Y-%m-%d')] *)
Definition strftime_Y_m_d (d : datetime) : string :=
  let '(y, m, dd) := civil_from_days (d / DAY) in
  four_digits y +:+ "-" +:+ two_digits m +:+ "-" +:+ two_digits dd.

(** An optional [str] inside an f-string. *)
Definition format_opt (o : option string) : string :=
  match o with
  | None => "None"
  | Some s => s
  end.

Module Script.

Record hot_story : Type := mkHotStory {
  id : string;
  title : string;
  author : string;
  created_utc : Z;
  score : Z;
  upvote_ratio : Q;
  url : string;
  selftext : string;
  num_comments : Z
}.

Definition make_hot_story (s : submission) : hot_story :=
  {| id := sub_id s;
     title := sub_title s;
     author := str_author (sub_author s);
     created_utc := sub_created_utc s;
     score := sub_score s;
     upvote_ratio := sub_upvote_ratio s;
     url := sub_url s;
     selftext := sub_selftext s;
     num_comments := sub_num_comments s |}.

Inductive event : Type :=
| CallSubredditHot (subreddit_name : option string) (limit : nat)
| CallPutObject (bucket : option string) (key : string)
                (body : list hot_story)
| LogFetchError (e : exn)
| LogUploadError (e : exn)
| LogPipelineFailed (e : exn).

Record world : Type := mkWorld {
  store : gmap string (list hot_story);
  trace : list event
}.

Definition M (A : Type) : Type := world -> world * result A.

Definition ret {A} (a : A) : M A := fun w => (w, Ok a).

Definition bind {A B} (m : M A) (k : A -> M B) : M B :=
  fun w =>
    match m w with
    | (w', Ok a) => k a w'
    | (w', Raise e) => (w', Raise e)
    end.

Definition raise {A} (e : exn) : M A := fun w => (w, Raise e).

Definition try_except {A} (m : M A) (h : exn -> M A) : M A :=
  fun w =>
    match m w with
    | (w', Ok a) => (w', Ok a)
    | (w', Raise e) => h e w'
    end.

Definition lift {A} (r : result A) : M A := fun w => (w, r).

Definition emit (ev : event) : M unit :=
  fun w => (mkWorld (store w) (trace w ++ [ev]), Ok tt).

Definition store_blob (key : string) (body : list hot_story) : M unit :=
  fun w => (mkWorld (<[key := body]> (store w)) (trace w), Ok tt).

(** The clients and the clock. *)
Record services : Type := mkServices {
  now : datetime;
  (** [subreddit.hot(limit)]: the submissions yielded, then the exception
      that ends the iteration, if any. *)
  subreddit_hot : option string -> nat -> list submission * option exn;
  (** [put_object]: returns, or raises. *)
  put_object : option string -> string -> result unit
}.

(** The attributes [__init__] reads with [os.getenv]: [None] when the
    variable is not set. *)
Record pipeline : Type := mkPipeline {
  bucket_name : option string;
  subreddit_name : option string
}.

(** Lines 49-61. *)
Fixpoint hot_loop (subs : list submission) (failure : option exn)
  (stories : list hot_story) : result (list hot_story) :=
  match subs with
  | [] =>
      match failure with
      | Some e => Raise e
      | None => Ok stories
      end
  | s :: rest => hot_loop rest failure (stories ++ [make_hot_story s])
  end.

(** Lines 43-68. *)
Definition fetch_stories (sv : services) (self : pipeline) (limit : nat)
  : M (list hot_story) :=
  try_except
    (bind (emit (CallSubredditHot (subreddit_name self) limit)) (fun _ =>
     let '(subs, failure) := subreddit_hot sv (subreddit_name self) limit in
     lift (hot_loop subs failure [])))
    (fun e => bind (emit (LogFetchError e)) (fun _ => raise e)).

(** Lines 70-92. *)
Definition upload_to_s3 (sv : services) (self : pipeline)
  (stories : list hot_story) : M unit :=
  try_except
    (let current_date := strftime_Y_m_d (now sv) in
     let filename :=
       "reddit_stories_" +:+ format_opt (subreddit_name self) +:+ "_"
       +:+ current_date +:+ ".json" in
     let stories_json := stories in
     bind (emit (CallPutObject (bucket_name self) ("raw/" +:+ filename)
                               stories_json)) (fun _ =>
     bind (lift (put_object sv (bucket_name self) ("raw/" +:+ filename)))
          (fun _ =>
     store_blob ("raw/" +:+ filename) stories_json)))
    (fun e => bind (emit (LogUploadError e)) (fun _ => raise e)).

(** Lines 94-104. [fetch_stories()] takes its default [limit=100]. *)
Definition run_pipeline (sv : services) (self : pipeline) : M unit :=
  try_except
    (bind (fetch_stories sv self 100) (fun stories =>
     upload_to_s3 sv self stories))
    (fun e => bind (emit (LogPipelineFailed e)) (fun _ => raise e)).

End Script.

(** * Vocabulary of the properties *)

(** ** Windows *)

(** Every window is one day long and starts where the one before ends,
    the first one at [t]. *)
Fixpoint contiguous_from (t : datetime) (ws : list window) : Prop :=
  match ws with
  | [] => True
  | (a, b) :: rest => a = t /\ b = a + DAY /\ contiguous_from b rest
  end.

(** The end of the last window, [t] when there is none. *)
Fixpoint last_end (t : datetime) (ws : list window) : datetime :=
  match ws with
  | [] => t
  | (_, b) :: rest => last_end b rest
  end.

(** The union of the windows is the interval from [a] to [b]. *)
Definition covers_exactly (ws : list window) (a b : datetime) : Prop :=
  forall t : datetime,
    a <= t < b <-> exists w, In w ws /\ fst w <= t < snd w.

(** ** What a trace shows *)

Inductive source : Type := LIVE | ARCHIVE.

Definition source_of (ev : event) : list source :=
  match ev with
  | CallSubredditNew _ _ => [LIVE]
  | CallSearchSubmissions _ _ _ => [ARCHIVE]
  | _ => []
  end.

(** The sources queried, in the order of the queries. *)
Definition sources_queried (evs : list event) : list source :=
  flat_map source_of evs.

Definition batch_of (ev : event) : list (string * list story) :=
  match ev with
  | CallPutObject _ key body => [(key, body)]
  | _ => []
  end.

(** The batches handed to the blob store, with their keys. *)
Definition batches (evs : list event) : list (string * list story) :=
  flat_map batch_of evs.

Definition date_error_of (ev : event) : list (datetime * exn) :=
  match ev with
  | LogDateError start e => [(start, e)]
  | _ => []
  end.

(** The windows that failed, with the exception caught. *)
Definition date_errors (evs : list event) : list (datetime * exn) :=
  flat_map date_error_of evs.

Definition closes_window (ev : event) : list unit :=
  match ev with
  | LogDateError _ _ | LogNoStories _ | LogUploadError _
  | LogUploadStatus _ => [tt]
  | _ => []
  end.

(** The number of windows the loop has gone through. *)
Definition windows_closed (evs : list event) : nat :=
  length (flat_map closes_window evs).

(** ** What the services determine *)

Definition in_horizon (sv : services) (start : datetime) : bool :=
  timedelta_days (now sv) start <? 90.

Definition in_window (start end_ : datetime) (st : story) : Prop :=
  start <= created_utc st < end_.

Definition s3_key (subreddit_name : string) (start : datetime) : string :=
  "reddit_data/" +:+ subreddit_name +:+ "/" +:+ strftime_Ymd start +:+ ".json".

(** The records the LIVE pass yields for a window. *)
Definition live_yield (sv : services) (subreddit_name : string)
  (start end_ : datetime) : result (list story) :=
  let '(subs, failure) := subreddit_new sv subreddit_name 1000%nat in
  Historic.live_loop start end_ subs failure [].

(** The submissions of the listing that the LIVE pass keeps. *)
Definition live_kept (start end_ : datetime) (s : submission) : bool :=
  (start <=? sub_created_utc s) && (sub_created_utc s <? end_) && eligible s.

(** The detail lookup of one identifier: the record it adds, if any, or the
    exception it ends with. *)
Definition item_outcome (sv : services) (submission_id : string)
  : result (option story) :=
  match fetch_submission sv submission_id with
  | Raise e => Raise e
  | Ok s =>
      if eligible s then
        match fromtimestamp (sub_created_utc s) with
        | Raise e => Raise e
        | Ok t => Ok (Some (make_story s t))
        end
      else Ok None
  end.

Definition enriched_item (sv : services) (submission_id : string)
  : list story :=
  match item_outcome sv submission_id with
  | Ok (Some st) => [st]
  | _ => []
  end.

(** The successfully enriched records of a list of identifiers. *)
Definition enriched (sv : services) (submission_ids : list string)
  : list story :=
  flat_map (enriched_item sv) submission_ids.

Definition lookup_item_events (sv : services) (submission_id : string)
  : list event :=
  CallSubmission submission_id ::
  match item_outcome sv submission_id with
  | Raise e => [LogSubmissionError submission_id e]
  | Ok _ => []
  end.

(** The calls and log lines of the detail lookups. *)
Definition lookup_events (sv : services) (submission_ids : list string)
  : list event :=
  flat_map (lookup_item_events sv) submission_ids.

(** The LIVE pass as the orchestration sees it. *)
Definition live_stage (sv : services) (subreddit_name : string)
  (start end_ : datetime) : result (list story) :=
  if in_horizon sv start then live_yield sv subreddit_name start end_
  else Ok [].

Definition archive_search (sv : services) (subreddit_name : string)
  (start end_ : datetime) : result (list string) :=
  search_submissions sv subreddit_name (int_timestamp start)
                     (int_timestamp end_).

(** The records that survive the fetch phase of a window, or the exception
    that ends it. *)
Definition surviving (sv : services) (subreddit_name : string)
  (start end_ : datetime) : result (list story) :=
  match live_stage sv subreddit_name start end_ with
  | Raise e => Raise e
  | Ok (st :: l) => Ok (st :: l)
  | Ok [] =>
      match archive_search sv subreddit_name start end_ with
      | Raise e => Raise e
      | Ok submission_ids => Ok (enriched sv submission_ids)
      end
  end.

(** The calls and log lines of the fetch phase. *)
Definition fetch_events (sv : services) (subreddit_name : string)
  (start end_ : datetime) : list event :=
  (if in_horizon sv start then [CallSubredditNew subreddit_name 1000] else [])
  ++
  match live_stage sv subreddit_name start end_ with
  | Ok [] =>
      CallSearchSubmissions subreddit_name (int_timestamp start)
                            (int_timestamp end_) ::
      match archive_search sv subreddit_name start end_ with
      | Ok submission_ids => lookup_events sv submission_ids
      | Raise _ => []
      end
  | _ => []
  end.

(** The calls and log lines of the emission of a window's records. *)
Definition emit_events (sv : services) (bucket_name subreddit_name : string)
  (start : datetime) (stories : list story) : list event :=
  match stories with
  | [] => [LogNoStories start]
  | _ :: _ =>
      match initialize_s3 sv with
      | Raise e => [LogDateError start e]
      | Ok _ =>
          CallPutObject bucket_name (s3_key subreddit_name start) stories ::
          match put_object sv bucket_name (s3_key subreddit_name start) with
          | Raise e => [LogUploadError e]
          | Ok status => [LogUploadStatus status]
          end
      end
  end.

(** The store after the emission of a window's records. *)
Definition emit_store (sv : services) (bucket_name subreddit_name : string)
  (start : datetime) (stories : list story)
  (st : gmap string (list story)) : gmap string (list story) :=
  match stories, initialize_s3 sv,
        put_object sv bucket_name (s3_key subreddit_name start) with
  | _ :: _, Ok _, Ok status =>
      if status =? 200 then <[s3_key subreddit_name start := stories]> st
      else st
  | _, _, _ => st
  end.

(** The calls and log lines of a whole window. *)
Definition window_events (sv : services) (subreddit_name bucket_name : string)
  (start end_ : datetime) : list event :=
  fetch_events sv subreddit_name start end_ ++
  match surviving sv subreddit_name start end_ with
  | Raise e => [LogDateError start e]
  | Ok stories => emit_events sv bucket_name subreddit_name start stories
  end.

(** The store after a whole window. *)
Definition window_store (sv : services) (subreddit_name bucket_name : string)
  (start end_ : datetime) (st : gmap string (list story))
  : gmap string (list story) :=
  match surviving sv subreddit_name start end_ with
  | Raise _ => st
  | Ok stories => emit_store sv bucket_name subreddit_name start stories st
  end.
(** A world after more events. *)
Definition logged (w : world) (evs : list event) : world :=
  mkWorld (store w) (trace w ++ evs).

(** The calls and log lines of the loop over the windows. *)
Definition run_events (env : datetime -> services)
  (subreddit_name bucket_name : string) (ws : list window) : list event :=
  flat_map (fun w => window_events (env (fst w)) subreddit_name bucket_name
                                   (fst w) (snd w)) ws.

(** The store after the loop over the windows. *)
Definition run_store (env : datetime -> services)
  (subreddit_name bucket_name : string) (ws : list window)
  (st : gmap string (list story)) : gmap string (list story) :=
  fold_left (fun st w => window_store (env (fst w)) subreddit_name bucket_name
                                      (fst w) (snd w) st) ws st.

(** The record the code builds from a submission of the listing. *)
Definition story_of (s : submission) : story :=
  make_story s (sub_created_utc s).
(** ** Example data *)

(** 2023-01-01 00:00:00 *)
Definition T0 : datetime := 1672531200000000.

Definition empty_world : world := mkWorld empty [].

Definition post (i : string) (t : Z) : submission :=
  {| sub_id := i;
     sub_title := "title";
     sub_selftext := "body";
     sub_author := Some "alice";
     sub_score := 10;
     sub_created_utc := t;
     sub_url := "https://www.reddit.com/r/test/comments/" +:+ i;
     sub_num_comments := 2;
     sub_upvote_ratio := (19 # 20)%Q;
     sub_removed_by_category := None |}.

(** Services long after [T0]: the listing is empty, the archive knows the
    post [a1], created at [T0], and answers a search with inclusive [after]
    and exclusive [before]; the store accepts every write. *)
Definition sv_archive : services :=
  {| now := T0 + 200 * DAY;
     subreddit_new := fun _ _ => ([], None);
     search_submissions := fun _ after before =>
       if (after <=? 1672531200) && (1672531200 <? before)
       then Ok ["a1"] else Ok [];
     fetch_submission := fun i =>
       if String.eqb i "a1" then Ok (post "a1" T0) else Raise NotFound;
     initialize_s3 := Ok tt;
     put_object := fun _ _ => Ok 200 |}.

(** Services two days after [T0]: the post [a1] was created at 2023-01-02
    00:00:00 sharp; the listing shows it, and the archive returns it for a
    search with inclusive [after] and exclusive [before] around that
    second. *)
Definition sv_boundary : services :=
  {| now := T0 + 2 * DAY;
     subreddit_new := fun _ _ => ([post "a1" (T0 + DAY)], None);
     search_submissions := fun _ after before =>
       if (after <=? 1672617600) && (1672617600 <? before)
       then Ok ["a1"] else Ok [];
     fetch_submission := fun i =>
       if String.eqb i "a1" then Ok (post "a1" (T0 + DAY))
       else Raise NotFound;
     initialize_s3 := Ok tt;
     put_object := fun _ _ => Ok 200 |}.

(** Services a day after [T0] whose listing is unavailable, while the
    archive knows the post [a1] of that day and its detail can be read. *)
Definition sv_unavailable : services :=
  {| now := T0 + DAY;
     subreddit_new := fun _ _ => ([], Some RequestException);
     search_submissions := fun _ _ _ => Ok ["a1"];
     fetch_submission := fun i =>
       if String.eqb i "a1" then Ok (post "a1" (T0 + 100))
       else Raise NotFound;
     initialize_s3 := Ok tt;
     put_object := fun _ _ => Ok 200 |}.

(** Services whose every Reddit call fails on the credentials. *)
Definition sv_auth : services :=
  {| now := T0 + DAY;
     subreddit_new := fun _ _ => ([], Some OAuthException);
     search_submissions := fun _ _ _ => Ok [];
     fetch_submission := fun _ => Raise OAuthException;
     initialize_s3 := Ok tt;
     put_object := fun _ _ => Ok 200 |}.

(** Services shortly after [T0] whose listing has a post of each of the
    first two days. *)
Definition sv_live : services :=
  {| now := T0 + 2 * DAY;
     subreddit_new := fun _ _ =>
       ([post "b2" (T0 + DAY + 100); post "a1" (T0 + 100)], None);
     search_submissions := fun _ _ _ => Ok [];
     fetch_submission := fun _ => Raise NotFound;
     initialize_s3 := Ok tt;
     put_object := fun _ _ => Ok 200 |}.

(** Services long after [T0] with nothing to report. *)
Definition sv_quiet : services :=
  {| now := T0 + 200 * DAY;
     subreddit_new := fun _ _ => ([], None);
     search_submissions := fun _ _ _ => Ok [];
     fetch_submission := fun _ => Raise NotFound;
     initialize_s3 := Ok tt;
     put_object := fun _ _ => Ok 200 |}.
(** ** The Lambda responses *)

Definition success_response (n : nat) : Lambda.response :=
  {| Lambda.statusCode := 200;
     Lambda.body :=
       Lambda.json_dumps
         ("Successfully processed " +:+ pretty n +:+ " stories") |}.

Definition failure_response (e : exn) : Lambda.response :=
  {| Lambda.statusCode := 500;
     Lambda.body := Lambda.json_dumps ("Pipeline failed: " +:+ str_exn e) |}.

(** How the fetch and upload steps end: with the number of stories
    processed, or with the exception one of them raised. *)
Definition steps_outcome (fetch_stories : M (list story))
  (upload_to_s3 : list story -> M unit) (w : world) : result nat :=
  match fetch_stories w with
  | (_, Raise e) => Raise e
  | (_, Ok []) => Ok 0%nat
  | (w1, Ok (st :: l)) =>
      match upload_to_s3 (st :: l) w1 with
      | (_, Raise e) => Raise e
      | (_, Ok _) => Ok (length (st :: l))
      end
  end.
(** ** What a run writes *)

(** The write a window makes to the store, if any: the key and the
    document. *)
Definition window_write (sv : services) (subreddit_name bucket_name : string)
  (start end_ : datetime) : option (string * list story) :=
  match surviving sv subreddit_name start end_, initialize_s3 sv,
        put_object sv bucket_name (s3_key subreddit_name start) with
  | Ok (st :: l), Ok _, Ok status =>
      if status =? 200 then Some (s3_key subreddit_name start, st :: l)
      else None
  | _, _, _ => None
  end.

Definition apply_write (o : option (string * list story))
  (st : gmap string (list story)) : gmap string (list story) :=
  match o with
  | Some (k, v) => <[k := v]> st
  | None => st
  end.

(** What is found under the key [k] after a sequence of writes, [d] being
    what was there before. *)
Definition written (os : list (option (string * list story))) (k : string)
  (d : option (list story)) : option (list story) :=
  fold_left (fun acc o =>
               match o with
               | Some (k', v) => if decide (k' = k) then Some v else acc
               | None => acc
               end) os d.

Definition run_writes (env : datetime -> services)
  (subreddit_name bucket_name : string) (ws : list window)
  : list (option (string * list story)) :=
  map (fun w => window_write (env (fst w)) subreddit_name bucket_name
                             (fst w) (snd w)) ws.

(** The identifiers looked up, in the order of the lookups. *)
Definition lookups (evs : list event) : list string :=
  flat_map (fun ev => match ev with
                      | CallSubmission i => [i]
                      | _ => []
                      end) evs.
(** ** The stand-alone pipeline *)

(** The key [upload_to_s3] of the stand-alone pipeline writes to. *)
Definition script_key (sv : Script.services) (self : Script.pipeline)
  : string :=
  "raw/" +:+
  ("reddit_stories_" +:+ format_opt (Script.subreddit_name self) +:+ "_"
   +:+ strftime_Y_m_d (Script.now sv) +:+ ".json").

(** The documents handed to [put_object], with their keys. *)
Definition script_puts (evs : list Script.event)
  : list (string * list Script.hot_story) :=
  flat_map (fun ev => match ev with
                      | Script.CallPutObject _ key body => [(key, body)]
                      | _ => []
                      end) evs.

(** The listing [fetch_stories] iterates over. *)
Definition hot_listing (sv : Script.services) (self : Script.pipeline)
  (limit : nat) : list submission * option exn :=
  Script.subreddit_hot sv (Script.subreddit_name self) limit.

(** * Properties *)

(** Closes a goal between two explicit runs. *)
Ltac finish_run :=
  unfold logged, bind, emit, lift, raise, ret, try_except; simpl;
  rewrite ?app_nil_r, <- ?app_assoc; simpl;
  rewrite ?app_nil_r; reflexivity.

(** ** The window generator *)

Section DateRange.

Lemma date_range_loop_done (fuel : nat) (c e : datetime) :
  e <= c -> date_range_loop fuel c e = ([], None).
Proof.
  intros Hle. destruct fuel as [|f]; simpl; [reflexivity|].
  destruct (Z.ltb_spec c e); [lia | reflexivity].
Qed.

Lemma date_range_fuel_step (c e : datetime) :
  c < e -> date_range_fuel c e = S (date_range_fuel (c + DAY) e).
Proof.
  intros Hlt. unfold date_range_fuel.
  replace (e - (c + DAY)) with ((e - c) + (-1) * DAY) by lia.
  rewrite Z.div_add by (unfold DAY; lia).
  assert (0 <= (e - c) / DAY) by (apply Z.div_pos; unfold DAY; lia).
  rewrite <- Z2Nat.inj_succ by lia. f_equal. lia.
Qed.

Lemma add_one_day_Ok (c n : datetime) :
  add_one_day c = Ok n -> n = c + DAY.
Proof.
  unfold add_one_day. destruct (_ && _); congruence.
Qed.

Lemma add_one_day_in_range (c : datetime) :
  MINDT <= c + DAY <= MAXDT -> add_one_day c = Ok (c + DAY).
Proof.
  intros [H1 H2]. unfold add_one_day.
  destruct (Z.leb_spec MINDT (c + DAY)); [|lia].
  destruct (Z.leb_spec (c + DAY) MAXDT); [|lia]. reflexivity.
Qed.

(** The fuel never runs out: [get_date_range] satisfies the equation of the
    generator's [while] loop. *)
Lemma get_date_range_unfold (start_date end_date : datetime) :
  get_date_range start_date end_date =
  if start_date <? end_date then
    match add_one_day start_date with
    | Raise e => ([], Some e)
    | Ok next_date =>
        let '(ws, e) := get_date_range next_date end_date in
        ((start_date, next_date) :: ws, e)
    end
  else ([], None).
Proof.
  unfold get_date_range.
  destruct (Z.ltb_spec start_date end_date) as [Hlt|Hge].
  - rewrite (date_range_fuel_step _ _ Hlt). simpl.
    destruct (Z.ltb_spec start_date end_date); [|lia].
    destruct (add_one_day start_date) as [n|x] eqn:E; [|reflexivity].
    apply add_one_day_Ok in E. subst n. reflexivity.
  - apply date_range_loop_done. lia.
Qed.

Lemma get_date_range_empty (start_date end_date : datetime) :
  end_date <= start_date -> get_date_range start_date end_date = ([], None).
Proof.
  intros H. rewrite get_date_range_unfold.
  destruct (Z.ltb_spec start_date end_date); [lia | reflexivity].
Qed.

Lemma contiguous_last_end (ws : list window) (t : datetime) :
  contiguous_from t ws -> t + Z.of_nat (length ws) * DAY = last_end t ws.
Proof.
  revert t. induction ws as [|[a b] ws IH]; intros t; simpl.
  - intros _. lia.
  - intros (-> & -> & Hc). specialize (IH _ Hc). lia.
Qed.

Lemma contiguous_covers (ws : list window) (t : datetime) :
  contiguous_from t ws -> covers_exactly ws t (last_end t ws).
Proof.
  revert t. induction ws as [|[a b] ws IH]; intros t; simpl.
  - intros _ u. split; [lia | intros (w & [] & _)].
  - intros (-> & -> & Hc) u.
    pose proof (contiguous_last_end _ _ Hc) as Hl.
    specialize (IH _ Hc u). split.
    + intros Hu. destruct (Z.lt_ge_cases u (t + DAY)) as [Hlt|Hge].
      * exists (t, t + DAY). simpl. split; [left; reflexivity | lia].
      * destruct IH as [IH _]. destruct IH as (w & Hin & Hw); [lia|].
        exists w. split; [right; exact Hin | exact Hw].
    + intros (w & [<- | Hin] & Hw); simpl in Hw.
      * unfold DAY in *. lia.
      * destruct IH as [_ IH]. unfold DAY in *.
        assert (t + 86400000000 <= u < last_end (t + 86400000000) ws)
          by (apply IH; exists w; split; assumption).
        lia.
Qed.

Lemma contiguous_nth (ws : list window) (t : datetime) (w : window) :
  contiguous_from t ws -> In w ws ->
  exists i : Z, 0 <= i /\ w = (t + i * DAY, t + (i + 1) * DAY).
Proof.
  revert t. induction ws as [|[a b] ws IH]; intros t; simpl; [tauto|].
  intros (-> & -> & Hc) [<- | Hin].
  - exists 0. split; [lia | f_equal; lia].
  - destruct (IH _ Hc Hin) as (i & Hi & ->).
    exists (i + 1). split; [lia | f_equal; lia].
Qed.

(** The example of the docstring of [get_date_range]. *)
Example get_date_range_docstring :
  get_date_range T0 (T0 + 2 * DAY) =
  ([(T0, T0 + DAY); (T0 + DAY, T0 + 2 * DAY)], None) /\
  strftime_Ymd T0 = "20230101" /\ strftime_Ymd (T0 + DAY) = "20230102".
Proof. repeat split; reflexivity. Qed.

(** In the last day of the range of [datetime] the day arithmetic fails:
    from 9999-12-31 12:00 the generator raises before it yields. *)
Example get_date_range_overflow :
  get_date_range (MAXDT - DAY / 2) MAXDT = ([], Some OverflowError).
Proof. reflexivity. Qed.

(** Within the range of [datetime] the generator ends normally, and its
    windows are chained from [start_date] up to the first multiple of a day
    that reaches [end_date]. *)
Lemma get_date_range_windows (n : nat) :
  forall start_date end_date : datetime,
    end_date - start_date <= Z.of_nat n * DAY ->
    MINDT <= start_date -> end_date + DAY <= MAXDT + 1 ->
    exists ws,
      get_date_range start_date end_date = (ws, None) /\
      contiguous_from start_date ws /\
      (start_date < end_date ->
       end_date <= last_end start_date ws < end_date + DAY).
Proof.
  induction n as [|n IH]; intros s e Hn Hmin Hmax.
  - exists []. rewrite get_date_range_empty by lia.
    repeat split; lia.
  - destruct (Z.lt_ge_cases s e) as [Hlt|Hge].
    + rewrite get_date_range_unfold.
      destruct (Z.ltb_spec s e); [|lia].
      rewrite add_one_day_in_range by (unfold DAY, MINDT, MAXDT in *; lia).
      destruct (IH (s + DAY) e) as (ws & Heq & Hc & Hl);
        [lia | unfold DAY; lia | lia |].
      rewrite Heq. exists ((s, s + DAY) :: ws). simpl.
      repeat split; try assumption.
      * destruct (Z.lt_ge_cases (s + DAY) e) as [H1|H1]; [apply Hl; lia|].
        rewrite get_date_range_empty in Heq by lia.
        injection Heq as <-. simpl. lia.
      * destruct (Z.lt_ge_cases (s + DAY) e) as [H1|H1]; [apply Hl; lia|].
        rewrite get_date_range_empty in Heq by lia.
        injection Heq as <-. simpl. lia.
    + exists []. rewrite get_date_range_empty by lia.
      repeat split; lia.
Qed.

Lemma get_date_range_spec (start_date end_date : datetime) :
  MINDT <= start_date -> end_date + DAY <= MAXDT + 1 ->
  exists ws,
    get_date_range start_date end_date = (ws, None) /\
    contiguous_from start_date ws /\
    (start_date < end_date ->
     end_date <= last_end start_date ws < end_date + DAY).
Proof.
  intros Hmin Hmax.
  apply (get_date_range_windows (Z.to_nat (end_date - start_date)));
    [|assumption|assumption].
  unfold DAY. lia.
Qed.

End DateRange.

(** ** The monad *)

Section MonadLaws.

Context {A B C : Type}.

Lemma bind_assoc (m : M A) (f : A -> M B) (g : B -> M C) (w : world) :
  bind (bind m f) g w = bind m (fun a => bind (f a) g) w.
Proof.
  unfold bind. destruct (m w) as [w1 [a|e]]; reflexivity.
Qed.

Lemma bind_run_ok (m : M A) (f : A -> M B) (w w1 : world) (a : A) :
  m w = (w1, Ok a) -> bind m f w = f a w1.
Proof. intros H. unfold bind. rewrite H. reflexivity. Qed.

Lemma bind_run_raise (m : M A) (f : A -> M B) (w w1 : world) (e : exn) :
  m w = (w1, Raise e) -> bind m f w = (w1, Raise e).
Proof. intros H. unfold bind. rewrite H. reflexivity. Qed.

End MonadLaws.

Lemma logged_nil (w : world) : logged w [] = w.
Proof. destruct w. unfold logged. simpl. rewrite app_nil_r. reflexivity. Qed.

Lemma logged_logged (w : world) (a b : list event) :
  logged (logged w a) b = logged w (a ++ b).
Proof. unfold logged. simpl. rewrite app_assoc. reflexivity. Qed.

(** ** The two passes of the historic pull *)

Section Passes.

Variable sv : services.

Lemma archive_item_run (i : string) (acc : list story) (w : world) :
  Historic.archive_item sv i acc w =
  (logged w (lookup_item_events sv i), Ok (acc ++ enriched_item sv i)).
Proof.
  unfold Historic.archive_item, lookup_item_events, enriched_item,
    item_outcome, try_except, bind, emit, lift, ret, logged.
  simpl.
  destruct (fetch_submission sv i) as [s|e]; simpl.
  - destruct (eligible s); simpl.
    + destruct (fromtimestamp (sub_created_utc s)) as [t|e]; simpl.
      * reflexivity.
      * rewrite <- app_assoc, app_nil_r. reflexivity.
    + rewrite app_nil_r. reflexivity.
  - rewrite <- app_assoc, app_nil_r. reflexivity.
Qed.

Lemma archive_loop_run (ids : list string) :
  forall (acc : list story) (w : world),
    Historic.archive_loop sv ids acc w =
    (logged w (lookup_events sv ids), Ok (acc ++ enriched sv ids)).
Proof.
  induction ids as [|i ids IH]; intros acc w; simpl.
  - unfold ret. rewrite logged_nil, app_nil_r. reflexivity.
  - unfold bind. rewrite archive_item_run, IH, logged_logged.
    rewrite <- app_assoc. reflexivity.
Qed.

End Passes.

Section Window.

Variable sv : services.
Variables subreddit_name bucket_name : string.

Lemma live_pass_run (start end_ : datetime) (w : world) :
  Historic.live_pass sv subreddit_name start end_ w =
  (logged w (if in_horizon sv start
             then [CallSubredditNew subreddit_name 1000] else []),
   live_stage sv subreddit_name start end_).
Proof.
  unfold Historic.live_pass, live_stage, live_yield, in_horizon.
  destruct (timedelta_days (now sv) start <? 90).
  - unfold bind, emit, lift, logged. simpl.
    destruct (subreddit_new sv subreddit_name 1000) as [subs failure].
    reflexivity.
  - unfold ret. rewrite logged_nil. reflexivity.
Qed.

Lemma archive_pass_nonempty (start end_ : datetime) (st : story)
  (l : list story) (w : world) :
  Historic.archive_pass sv subreddit_name start end_ (st :: l) w =
  (w, Ok (st :: l)).
Proof. reflexivity. Qed.

Lemma archive_pass_empty (start end_ : datetime) (w : world) :
  Historic.archive_pass sv subreddit_name start end_ [] w =
  (logged w (CallSearchSubmissions subreddit_name (int_timestamp start)
                                   (int_timestamp end_) ::
             match archive_search sv subreddit_name start end_ with
             | Ok ids => lookup_events sv ids
             | Raise _ => []
             end),
   match archive_search sv subreddit_name start end_ with
   | Ok ids => Ok (enriched sv ids)
   | Raise e => Raise e
   end).
Proof.
  unfold Historic.archive_pass, archive_search, bind, emit, lift. simpl.
  destruct (search_submissions sv subreddit_name (int_timestamp start)
              (int_timestamp end_)) as [ids|e].
  - rewrite archive_loop_run. unfold logged. simpl.
    rewrite <- app_assoc. reflexivity.
  - reflexivity.
Qed.

(** The fetch phase of a window: lines 146-208. *)
Lemma fetch_run (start end_ : datetime) (w : world) :
  bind (Historic.live_pass sv subreddit_name start end_)
       (Historic.archive_pass sv subreddit_name start end_) w =
  (logged w (fetch_events sv subreddit_name start end_),
   surviving sv subreddit_name start end_).
Proof.
  unfold bind. rewrite live_pass_run. unfold fetch_events, surviving.
  destruct (live_stage sv subreddit_name start end_) as [[|st l]|e].
  - rewrite archive_pass_empty, logged_logged.
    destruct (archive_search sv subreddit_name start end_); reflexivity.
  - rewrite archive_pass_nonempty, app_nil_r. reflexivity.
  - rewrite app_nil_r. reflexivity.
Qed.

Lemma emit_batch_run (start : datetime) (stories : list story) (w : world) :
  Historic.emit_batch sv bucket_name subreddit_name start stories w =
  match stories, initialize_s3 sv with
  | _ :: _, Raise e => (w, Raise e)
  | _, _ =>
      (mkWorld (emit_store sv bucket_name subreddit_name start stories
                           (store w))
               (trace w ++
                emit_events sv bucket_name subreddit_name start stories),
       Ok tt)
  end.
Proof.
  unfold Historic.emit_batch, emit_events, emit_store.
  destruct stories as [|st l].
  - unfold emit. destruct (initialize_s3 sv); reflexivity.
  - unfold Historic.upload_to_s3, bind, try_except, lift, emit, store_blob,
      ret, s3_key. simpl.
    destruct (initialize_s3 sv) as [[]|e]; [|reflexivity].
    destruct (put_object sv bucket_name _) as [status|e]; simpl.
    + destruct (status =? 200); simpl; rewrite <- app_assoc; reflexivity.
    + rewrite <- app_assoc. reflexivity.
Qed.

(** One window: the handler of line 222 closes every path, so the body of the
    loop always ends normally. *)
Lemma process_window_run (start end_ : datetime) (w : world) :
  Historic.process_window sv subreddit_name bucket_name (start, end_) w =
  (mkWorld (window_store sv subreddit_name bucket_name start end_ (store w))
           (trace w ++
            window_events sv subreddit_name bucket_name start end_),
   Ok tt).
Proof.
  unfold Historic.process_window, try_except.
  rewrite <- bind_assoc. unfold bind at 1. rewrite fetch_run.
  unfold window_events, window_store.
  destruct (surviving sv subreddit_name start end_) as [stories|e].
  - rewrite emit_batch_run. unfold emit_events, emit_store.
    destruct stories as [|st l]; simpl.
    + rewrite <- app_assoc. destruct (initialize_s3 sv); reflexivity.
    + destruct (initialize_s3 sv) as [[]|e]; simpl.
      * rewrite <- app_assoc. reflexivity.
      * unfold emit, logged. simpl. rewrite <- app_assoc. reflexivity.
  - unfold emit, logged. simpl. rewrite <- app_assoc. reflexivity.
Qed.

End Window.

(** ** The loop over the windows *)

Section Run.

Variable env : datetime -> services.
Variables subreddit_name bucket_name : string.

Lemma process_windows_run (ws : list window) :
  forall w : world,
    Historic.process_windows env subreddit_name bucket_name ws w =
    (mkWorld (run_store env subreddit_name bucket_name ws (store w))
             (trace w ++ run_events env subreddit_name bucket_name ws),
     Ok tt).
Proof.
  induction ws as [|[start end_] ws IH]; intros w.
  - simpl. unfold ret. rewrite app_nil_r. destruct w; reflexivity.
  - cbn [Historic.process_windows fst]. unfold bind.
    rewrite process_window_run, IH. simpl.
    rewrite <- app_assoc. reflexivity.
Qed.

Lemma download_run (initialize_reddit : result unit)
  (start_date end_date : datetime) (w : world) :
  Historic.download_subreddit_by_date initialize_reddit env subreddit_name
    bucket_name start_date end_date w =
  match initialize_reddit with
  | Raise e => (w, Raise e)
  | Ok _ =>
      let '(ws, failure) := get_date_range start_date end_date in
      (mkWorld (run_store env subreddit_name bucket_name ws (store w))
               (trace w ++ run_events env subreddit_name bucket_name ws),
       match failure with
       | Some e => Raise e
       | None => Ok tt
       end)
  end.
Proof.
  unfold Historic.download_subreddit_by_date, bind, lift.
  destruct initialize_reddit as [[]|e]; [|reflexivity].
  destruct (get_date_range start_date end_date) as [ws failure].
  rewrite process_windows_run.
  destruct failure; reflexivity.
Qed.

End Run.

(** ** The LIVE loop *)

Lemma fromtimestamp_Ok (ts : Z) (t : datetime) :
  fromtimestamp ts = Ok t -> t = ts.
Proof. unfold fromtimestamp. destruct (_ && _); congruence. Qed.

Lemma live_loop_Ok (start end_ : datetime) (failure : option exn)
  (subs : list submission) :
  forall acc l : list story,
    Historic.live_loop start end_ subs failure acc = Ok l ->
    l = acc ++ map story_of (List.filter (live_kept start end_) subs).
Proof.
  induction subs as [|s subs IH]; intros acc l; simpl.
  - destruct failure; [discriminate|]. intros [= <-].
    rewrite app_nil_r. reflexivity.
  - destruct (fromtimestamp (sub_created_utc s)) as [t|e] eqn:Et;
      [|discriminate].
    apply fromtimestamp_Ok in Et. subst t. unfold live_kept at 1.
    destruct ((start <=? sub_created_utc s) && (sub_created_utc s <? end_));
      simpl.
    + destruct (eligible s); simpl; intros H; apply IH in H; subst l.
      * rewrite <- app_assoc. reflexivity.
      * reflexivity.
    + intros H. apply IH in H. exact H.
Qed.

Lemma live_yield_Ok (sv : services) (subreddit_name : string)
  (start end_ : datetime) (l : list story) :
  live_yield sv subreddit_name start end_ = Ok l ->
  l = map story_of
        (List.filter (live_kept start end_)
                     (fst (subreddit_new sv subreddit_name 1000%nat))).
Proof.
  unfold live_yield.
  destruct (subreddit_new sv subreddit_name 1000) as [subs failure].
  intros H. apply live_loop_Ok in H. exact H.
Qed.

Lemma live_kept_true (start end_ : datetime) (s : submission) :
  live_kept start end_ s = true ->
  start <= sub_created_utc s < end_ /\ eligible s = true.
Proof.
  unfold live_kept. intros H.
  apply andb_prop in H as [H He]. apply andb_prop in H as [H1 H2].
  apply Z.leb_le in H1. apply Z.ltb_lt in H2. auto.
Qed.

Lemma live_yield_in (sv : services) (subreddit_name : string)
  (start end_ : datetime) (l : list story) (st : story) :
  live_yield sv subreddit_name start end_ = Ok l -> In st l ->
  exists s, In s (fst (subreddit_new sv subreddit_name 1000%nat)) /\
            st = story_of s /\
            start <= sub_created_utc s < end_ /\ eligible s = true.
Proof.
  intros H Hin. apply live_yield_Ok in H. subst l.
  apply in_map_iff in Hin as (s & <- & Hs).
  apply filter_In in Hs as [Hs Hk]. apply live_kept_true in Hk.
  exists s. tauto.
Qed.

Lemma eligible_true (s : submission) :
  eligible s = true ->
  truthy_opt (sub_removed_by_category s) = false /\
  truthy (sub_selftext s) = true.
Proof.
  unfold eligible. intros H. apply andb_prop in H as [H1 H2].
  apply negb_true_iff in H1. auto.
Qed.

Lemma enriched_in (sv : services) (ids : list string) (st : story) :
  In st (enriched sv ids) ->
  exists i s, In i ids /\ fetch_submission sv i = Ok s /\
              eligible s = true /\ st = story_of s.
Proof.
  unfold enriched. intros H. apply in_flat_map in H as (i & Hi & H).
  unfold enriched_item, item_outcome in H.
  destruct (fetch_submission sv i) as [s|e] eqn:Ef; [|destruct H].
  destruct (eligible s) eqn:Ee; [|destruct H].
  destruct (fromtimestamp (sub_created_utc s)) as [t|e] eqn:Et; [|destruct H].
  apply fromtimestamp_Ok in Et. subst t.
  destruct H as [<- | []]. exists i, s. auto.
Qed.

(** ** What the trace of a window shows *)

Section TraceOfWindow.

Variable sv : services.
Variables subreddit_name bucket_name : string.
Variables start end_ : datetime.

Lemma lookup_events_sources (ids : list string) :
  sources_queried (lookup_events sv ids) = [].
Proof.
  induction ids as [|i ids IH]; [reflexivity|].
  unfold lookup_events, sources_queried in *. simpl.
  rewrite flat_map_app, IH. unfold lookup_item_events.
  destruct (item_outcome sv i); reflexivity.
Qed.

Lemma lookup_events_batches (ids : list string) :
  batches (lookup_events sv ids) = [].
Proof.
  induction ids as [|i ids IH]; [reflexivity|].
  unfold lookup_events, batches in *. simpl.
  rewrite flat_map_app, IH. unfold lookup_item_events.
  destruct (item_outcome sv i); reflexivity.
Qed.

Lemma lookup_events_date_errors (ids : list string) :
  date_errors (lookup_events sv ids) = [].
Proof.
  induction ids as [|i ids IH]; [reflexivity|].
  unfold lookup_events, date_errors in *. simpl.
  rewrite flat_map_app, IH. unfold lookup_item_events.
  destruct (item_outcome sv i); reflexivity.
Qed.

Lemma lookup_events_closed (ids : list string) :
  windows_closed (lookup_events sv ids) = 0%nat.
Proof.
  induction ids as [|i ids IH]; [reflexivity|].
  unfold lookup_events, windows_closed in *. simpl.
  rewrite flat_map_app, length_app, IH. unfold lookup_item_events.
  destruct (item_outcome sv i); reflexivity.
Qed.

Lemma fetch_events_sources :
  sources_queried (fetch_events sv subreddit_name start end_) =
  if in_horizon sv start then
    match live_yield sv subreddit_name start end_ with
    | Ok [] => [LIVE; ARCHIVE]
    | _ => [LIVE]
    end
  else [ARCHIVE].
Proof.
  unfold fetch_events, live_stage, sources_queried.
  rewrite flat_map_app.
  destruct (in_horizon sv start); simpl.
  - destruct (live_yield sv subreddit_name start end_) as [[|st l]|e];
      simpl; try reflexivity.
    destruct (archive_search sv subreddit_name start end_); simpl;
      [|reflexivity].
    fold (sources_queried (lookup_events sv a)).
    rewrite lookup_events_sources. reflexivity.
  - destruct (archive_search sv subreddit_name start end_); simpl;
      [|reflexivity].
    fold (sources_queried (lookup_events sv a)).
    rewrite lookup_events_sources. reflexivity.
Qed.

Lemma fetch_events_batches :
  batches (fetch_events sv subreddit_name start end_) = [].
Proof.
  unfold fetch_events, batches. rewrite flat_map_app.
  assert (flat_map batch_of
            (if in_horizon sv start
             then [CallSubredditNew subreddit_name 1000] else []) = [])
    as -> by (destruct (in_horizon sv start); reflexivity).
  destruct (live_stage sv subreddit_name start end_) as [[|st l]|e];
    simpl; try reflexivity.
  destruct (archive_search sv subreddit_name start end_); simpl;
    [|reflexivity].
  apply lookup_events_batches.
Qed.

Lemma fetch_events_date_errors :
  date_errors (fetch_events sv subreddit_name start end_) = [].
Proof.
  unfold fetch_events, date_errors. rewrite flat_map_app.
  assert (flat_map date_error_of
            (if in_horizon sv start
             then [CallSubredditNew subreddit_name 1000] else []) = [])
    as -> by (destruct (in_horizon sv start); reflexivity).
  destruct (live_stage sv subreddit_name start end_) as [[|st l]|e];
    simpl; try reflexivity.
  destruct (archive_search sv subreddit_name start end_); simpl;
    [|reflexivity].
  apply lookup_events_date_errors.
Qed.

Lemma fetch_events_closed :
  windows_closed (fetch_events sv subreddit_name start end_) = 0%nat.
Proof.
  unfold fetch_events, windows_closed. rewrite flat_map_app, length_app.
  assert (flat_map closes_window
            (if in_horizon sv start
             then [CallSubredditNew subreddit_name 1000] else []) = [])
    as -> by (destruct (in_horizon sv start); reflexivity).
  destruct (live_stage sv subreddit_name start end_) as [[|st l]|e];
    simpl; try reflexivity.
  destruct (archive_search sv subreddit_name start end_); simpl;
    [|reflexivity].
  apply lookup_events_closed.
Qed.

Lemma emit_events_sources (stories : list story) :
  sources_queried
    (emit_events sv bucket_name subreddit_name start stories) = [].
Proof.
  unfold emit_events. destruct stories; [reflexivity|].
  destruct (initialize_s3 sv); [|reflexivity].
  destruct (put_object sv bucket_name _); reflexivity.
Qed.

Lemma window_events_sources :
  sources_queried
    (window_events sv subreddit_name bucket_name start end_) =
  if in_horizon sv start then
    match live_yield sv subreddit_name start end_ with
    | Ok [] => [LIVE; ARCHIVE]
    | _ => [LIVE]
    end
  else [ARCHIVE].
Proof.
  unfold window_events, sources_queried. rewrite flat_map_app.
  fold (sources_queried (fetch_events sv subreddit_name start end_)).
  rewrite fetch_events_sources.
  assert (flat_map source_of
            match surviving sv subreddit_name start end_ with
            | Ok stories =>
                emit_events sv bucket_name subreddit_name start stories
            | Raise e => [LogDateError start e]
            end = []) as ->.
  { destruct (surviving sv subreddit_name start end_); [|reflexivity].
    apply emit_events_sources. }
  apply app_nil_r.
Qed.

(** The batch of a window: the surviving records, when there are some and
    the storage client could be built. *)
Lemma window_events_batches :
  batches (window_events sv subreddit_name bucket_name start end_) =
  match surviving sv subreddit_name start end_, initialize_s3 sv with
  | Ok (st :: l), Ok _ => [(s3_key subreddit_name start, st :: l)]
  | _, _ => []
  end.
Proof.
  unfold window_events, batches. rewrite flat_map_app.
  fold (batches (fetch_events sv subreddit_name start end_)).
  rewrite fetch_events_batches. simpl.
  destruct (surviving sv subreddit_name start end_) as [[|st l]|e].
  - destruct (initialize_s3 sv); reflexivity.
  - unfold emit_events. destruct (initialize_s3 sv); [|reflexivity].
    destruct (put_object sv bucket_name _); reflexivity.
  - destruct (initialize_s3 sv); reflexivity.
Qed.

Lemma window_events_closed :
  windows_closed
    (window_events sv subreddit_name bucket_name start end_) = 1%nat.
Proof.
  unfold window_events, windows_closed. rewrite flat_map_app, length_app.
  fold (windows_closed (fetch_events sv subreddit_name start end_)).
  rewrite fetch_events_closed. simpl.
  destruct (surviving sv subreddit_name start end_) as [[|st l]|e];
    try reflexivity.
  unfold emit_events. destruct (initialize_s3 sv); [|reflexivity].
  destruct (put_object sv bucket_name _); reflexivity.
Qed.

(** Where a surviving record comes from. *)
Lemma surviving_in (l : list story) (st : story) :
  surviving sv subreddit_name start end_ = Ok l -> In st l ->
  (live_stage sv subreddit_name start end_ = Ok l /\
   exists s, In s (fst (subreddit_new sv subreddit_name 1000%nat)) /\
             st = story_of s /\
             start <= sub_created_utc s < end_ /\ eligible s = true)
  \/
  (live_stage sv subreddit_name start end_ = Ok [] /\
   exists ids i s,
     archive_search sv subreddit_name start end_ = Ok ids /\
     l = enriched sv ids /\ In i ids /\
     fetch_submission sv i = Ok s /\ eligible s = true /\ st = story_of s).
Proof.
  unfold surviving.
  destruct (live_stage sv subreddit_name start end_) as [[|st0 l0]|e] eqn:El;
    [| |discriminate].
  - destruct (archive_search sv subreddit_name start end_) as [ids|e];
      [|discriminate].
    intros [= <-] Hin. right. split; [reflexivity|].
    destruct (enriched_in _ _ _ Hin) as (i & s & H).
    exists ids, i, s. tauto.
  - intros [= <-] Hin. left. split; [reflexivity|].
    unfold live_stage in El.
    destruct (in_horizon sv start); [|discriminate].
    destruct (live_yield_in _ _ _ _ _ _ El Hin) as (s & H).
    exists s. exact H.
Qed.

End TraceOfWindow.

Lemma run_events_closed (env : datetime -> services)
  (subreddit_name bucket_name : string) (ws : list window) :
  windows_closed (run_events env subreddit_name bucket_name ws) = length ws.
Proof.
  induction ws as [|w ws IH]; [reflexivity|].
  unfold run_events, windows_closed in *. simpl.
  rewrite flat_map_app, length_app, IH.
  fold (windows_closed
          (window_events (env (fst w)) subreddit_name bucket_name
                         (fst w) (snd w))).
  rewrite window_events_closed. reflexivity.
Qed.

(** ** The DAG task follows the same passes *)

Lemma dag_live_loop_eq (start end_ : datetime) (failure : option exn)
  (subs : list submission) :
  forall acc : list story,
    Dag.live_loop start end_ subs failure acc =
    Historic.live_loop start end_ subs failure acc.
Proof.
  induction subs as [|s subs IH]; intros acc; simpl; [reflexivity|].
  destruct (fromtimestamp (sub_created_utc s)); [|reflexivity].
  destruct (_ && _); [destruct (eligible s)|]; apply IH.
Qed.

Lemma dag_archive_loop_eq (sv : services) (ids : list string) :
  forall (acc : list story) (w : world),
    Dag.archive_loop sv ids acc w = Historic.archive_loop sv ids acc w.
Proof.
  induction ids as [|i ids IH]; intros acc w; simpl; [reflexivity|].
  unfold bind. change (Dag.archive_item sv i acc w)
    with (Historic.archive_item sv i acc w).
  destruct (Historic.archive_item sv i acc w) as [w1 [l|e]];
    [apply IH | reflexivity].
Qed.

Lemma dag_fetch_run (sv : services) (subreddit_name : string)
  (start end_ : datetime) (w : world) :
  Dag.fetch_reddit_data (Ok tt) sv subreddit_name start end_ w =
  (logged w (fetch_events sv subreddit_name start end_ ++
             match surviving sv subreddit_name start end_ with
             | Raise e => [LogFetchError e]
             | Ok _ => []
             end),
   surviving sv subreddit_name start end_).
Proof.
  unfold Dag.fetch_reddit_data, fetch_events, surviving, live_stage,
    live_yield, archive_search, in_horizon.
  unfold bind at 1. unfold lift at 1. unfold try_except, bind at 1.
  destruct (timedelta_days (now sv) start <? 90).
  - unfold bind at 1. unfold emit at 1. cbn [fst snd].
    destruct (subreddit_new sv subreddit_name 1000) as [subs failure].
    unfold lift at 1. rewrite dag_live_loop_eq.
    destruct (Historic.live_loop start end_ subs failure []) as [[|st l]|e].
    + unfold bind, emit, lift. simpl.
      destruct (search_submissions sv subreddit_name (int_timestamp start)
                  (int_timestamp end_)) as [ids|e].
      * rewrite dag_archive_loop_eq, archive_loop_run. finish_run.
      * finish_run.
    + finish_run.
    + finish_run.
  - unfold ret at 1. unfold bind, emit, lift. simpl.
    destruct (search_submissions sv subreddit_name (int_timestamp start)
                (int_timestamp end_)) as [ids|e].
    + rewrite dag_archive_loop_eq, archive_loop_run. finish_run.
    + finish_run.
Qed.

(** * The claims *)

(** ** The window generator *)

Lemma get_date_range_contiguous (fuel : nat) :
  forall c e : datetime,
    contiguous_from c (fst (date_range_loop fuel c e)).
Proof.
  induction fuel as [|f IH]; intros c e; simpl; [exact I|].
  destruct (c <? e); [|exact I].
  destruct (add_one_day c) as [n|x] eqn:En; [|exact I].
  apply add_one_day_Ok in En. subst n.
  specialize (IH (c + DAY) e).
  destruct (date_range_loop f (c + DAY) e) as [ws x]. simpl in *.
  auto.
Qed.

(** C4, as the specification states it, fails where the range is not a
    whole number of days: from 2023-01-01 00:00 to 2023-01-02 12:00 the
    generator yields two whole days, and 2023-01-02 12:00 lies in the second
    although it is outside the range. *)
Lemma C4_counterexample :
  ~ covers_exactly (fst (get_date_range T0 (T0 + DAY + DAY / 2)))
                   T0 (T0 + DAY + DAY / 2).
Proof.
  intros H. destruct (H (T0 + DAY + DAY / 2)) as [_ Hback].
  assert (T0 <= T0 + DAY + DAY / 2 < T0 + DAY + DAY / 2) as [_ Habs].
  { apply Hback. exists (T0 + DAY, T0 + 2 * DAY). split.
    - vm_compute. right. left. reflexivity.
    - vm_compute. split; [discriminate | reflexivity]. }
  lia.
Qed.

(** C4, amended: for [overall_start < overall_end], with [overall_start]
    a [datetime] and [overall_end] at least a day before the end of the
    range of [datetime] (so that the day arithmetic does not overflow), the
    generator ends normally with a finite ordered sequence of windows, each
    exactly one day, the first starting at [overall_start] and each next one
    starting where the one before ends; their union is the interval from
    [overall_start] to the end of the last window, which is the first whole
    number of days from [overall_start] that reaches [overall_end]; it is
    exactly [[overall_start, overall_end)] when the range is a whole number
    of days. *)
Theorem C4_windows_cover (start_date end_date : datetime) :
  start_date < end_date ->
  MINDT <= start_date -> end_date + DAY <= MAXDT + 1 ->
  exists ws : list window,
    get_date_range start_date end_date = (ws, None) /\
    contiguous_from start_date ws /\
    covers_exactly ws start_date (last_end start_date ws) /\
    end_date <= last_end start_date ws < end_date + DAY /\
    ((end_date - start_date) mod DAY = 0 ->
     covers_exactly ws start_date end_date).
Proof.
  intros Hlt Hmin Hmax.
  destruct (get_date_range_spec start_date end_date Hmin Hmax)
    as (ws & Heq & Hc & Hl).
  specialize (Hl Hlt). exists ws.
  split; [exact Heq|]. split; [exact Hc|].
  split; [apply contiguous_covers; exact Hc|].
  split; [exact Hl|].
  intros Hmod.
  assert (last_end start_date ws = end_date) as <-.
  { apply Z.div_exact in Hmod; [|unfold DAY; lia].
    pose proof (contiguous_last_end _ _ Hc) as Hlen.
    revert Hmod Hlen Hl. generalize ((end_date - start_date) / DAY).
    generalize (Z.of_nat (length ws)). unfold DAY. intros. lia. }
  apply contiguous_covers. exact Hc.
Qed.

Lemma C4_windows_cover_witness :
  exists ws : list window,
    get_date_range T0 (T0 + 2 * DAY) = (ws, None) /\
    contiguous_from T0 ws /\
    covers_exactly ws T0 (last_end T0 ws) /\
    T0 + 2 * DAY <= last_end T0 ws < T0 + 2 * DAY + DAY /\
    ((T0 + 2 * DAY - T0) mod DAY = 0 ->
     covers_exactly ws T0 (T0 + 2 * DAY)).
Proof.
  apply (C4_windows_cover T0 (T0 + 2 * DAY)).
  - vm_compute. reflexivity.
  - vm_compute. discriminate.
  - vm_compute. discriminate.
Defined.

(** C9, as the specification states it, fails: with
    [overall_start = overall_end] the generator yields nothing and raises
    nothing, and the run ends normally. *)
Lemma C9_counterexample :
  get_date_range T0 T0 = ([], None) /\
  Historic.download_subreddit_by_date (Ok tt) (fun _ => sv_archive)
    "test" "bucket" T0 T0 empty_world = (empty_world, Ok tt).
Proof. split; reflexivity. Qed.

(** C9, amended: for every pair with [overall_start >= overall_end] the
    generator yields the empty sequence without raising, and the run ends
    normally without any fetch, write or log line: the world is left as it
    was. *)
Theorem C9_empty_range (env : datetime -> services)
  (subreddit_name bucket_name : string) (start_date end_date : datetime)
  (w : world) :
  end_date <= start_date ->
  get_date_range start_date end_date = ([], None) /\
  Historic.download_subreddit_by_date (Ok tt) env subreddit_name bucket_name
    start_date end_date w = (w, Ok tt).
Proof.
  intros Hle. split; [apply get_date_range_empty; exact Hle|].
  rewrite download_run, get_date_range_empty by exact Hle.
  simpl. rewrite app_nil_r. destruct w; reflexivity.
Qed.

Lemma C9_empty_range_witness :
  get_date_range (T0 + DAY) T0 = ([], None) /\
  Historic.download_subreddit_by_date (Ok tt) (fun _ => sv_live)
    "test" "bucket" (T0 + DAY) T0 empty_world = (empty_world, Ok tt).
Proof.
  apply (C9_empty_range (fun _ => sv_live) "test" "bucket" (T0 + DAY) T0
           empty_world).
  vm_compute. discriminate.
Defined.

(** ** One window *)

Lemma process_window_trace (sv : services)
  (subreddit_name bucket_name : string) (start end_ : datetime) (w : world) :
  trace (fst (Historic.process_window sv subreddit_name bucket_name
                (start, end_) w)) =
  trace w ++ window_events sv subreddit_name bucket_name start end_.
Proof. rewrite process_window_run. reflexivity. Qed.

(** C1, as the specification states it, fails where the LIVE listing
    raises. The window is within the horizon and the listing breaks off
    without a record, so the LIVE pass has yielded zero eligible records;
    the archive would answer with the post [a1], but it is not queried: the
    window ends with LIVE as its only query and without a batch. *)
Lemma C1_counterexample :
  let w1 := fst (Historic.process_window sv_unavailable "test" "bucket"
                   (T0, T0 + DAY) empty_world) in
  (timedelta_days (now sv_unavailable) T0 <? 90) = true /\
  fst (subreddit_new sv_unavailable "test" 1000%nat) = [] /\
  search_submissions sv_unavailable "test" (int_timestamp T0)
    (int_timestamp (T0 + DAY)) = Ok ["a1"] /\
  sources_queried (trace w1) = [LIVE] /\
  ~ In ARCHIVE (sources_queried (trace w1)) /\
  batches (trace w1) = [].
Proof.
  repeat split; try reflexivity.
  vm_compute. intros [H | []]. discriminate H.
Qed.

(** C1, amended: for every day window the sources are queried in strict
    fallback order. If the window starts within 90 days of now the LIVE
    listing is queried first. The archive is queried exactly when the LIVE
    pass ran to its end with zero eligible records or the window starts
    outside the horizon. A LIVE pass that raises ends the window there: the
    archive is not queried, the records collected so far are dropped, no
    batch is emitted and the window is logged as failed. The results of the
    two sources are never merged: a non-empty LIVE result is the batch of
    the window as it is, and where the archive is queried the batch holds
    the enriched records of the archive alone (no batch when there is none,
    or when the search raises). The DAG task [fetch_reddit_data] queries in
    the same order and returns the same records, re-raising where the
    window of the historic pull is logged as failed. *)
Theorem C1_fallback_order_amended (sv : services)
  (subreddit_name bucket_name : string) (start end_ : datetime) (w : world) :
  let fallback :=
    if timedelta_days (now sv) start <? 90 then
      match live_yield sv subreddit_name start end_ with
      | Ok [] => [LIVE; ARCHIVE]
      | Ok (_ :: _) => [LIVE]
      | Raise _ => [LIVE]
      end
    else [ARCHIVE] in
  let w1 := fst (Historic.process_window sv subreddit_name bucket_name
                   (start, end_) w) in
  let r2 := Dag.fetch_reddit_data (Ok tt) sv subreddit_name start end_ w in
  let emitted (l : list story) :=
    match l, initialize_s3 sv with
    | _ :: _, Ok _ => [(s3_key subreddit_name start, l)]
    | _, _ => []
    end in
  sources_queried (trace w1) = sources_queried (trace w) ++ fallback /\
  sources_queried (trace (fst r2)) = sources_queried (trace w) ++ fallback /\
  (forall (st : story) (l : list story),
     (timedelta_days (now sv) start <? 90) = true ->
     live_yield sv subreddit_name start end_ = Ok (st :: l) ->
     batches (trace w1) = batches (trace w) ++ emitted (st :: l) /\
     snd r2 = Ok (st :: l)) /\
  (forall e : exn,
     (timedelta_days (now sv) start <? 90) = true ->
     live_yield sv subreddit_name start end_ = Raise e ->
     batches (trace w1) = batches (trace w) /\
     store w1 = store w /\
     date_errors (trace w1) = date_errors (trace w) ++ [(start, e)] /\
     snd r2 = Raise e) /\
  (forall ids : list string,
     live_stage sv subreddit_name start end_ = Ok [] ->
     search_submissions sv subreddit_name (int_timestamp start)
       (int_timestamp end_) = Ok ids ->
     batches (trace w1) = batches (trace w) ++ emitted (enriched sv ids) /\
     snd r2 = Ok (enriched sv ids)) /\
  (forall e : exn,
     live_stage sv subreddit_name start end_ = Ok [] ->
     search_submissions sv subreddit_name (int_timestamp start)
       (int_timestamp end_) = Raise e ->
     batches (trace w1) = batches (trace w) /\
     store w1 = store w /\
     date_errors (trace w1) = date_errors (trace w) ++ [(start, e)] /\
     snd r2 = Raise e).
Proof.
  intros fallback w1 r2 emitted. subst fallback w1 r2 emitted.
  rewrite process_window_run, dag_fetch_run. cbn [fst snd trace store].
  unfold sources_queried, batches, date_errors. cbn [logged trace].
  rewrite !flat_map_app.
  fold (sources_queried
          (window_events sv subreddit_name bucket_name start end_)).
  fold (sources_queried (fetch_events sv subreddit_name start end_)).
  fold (batches (window_events sv subreddit_name bucket_name start end_)).
  rewrite window_events_sources, fetch_events_sources,
    window_events_batches.
  fold (in_horizon sv start).
  assert (Hfail : forall e : exn,
            surviving sv subreddit_name start end_ = Raise e ->
            flat_map date_error_of
              (window_events sv subreddit_name bucket_name start end_)
            = [(start, e)]).
  { intros e He. unfold window_events. rewrite flat_map_app, He.
    fold (date_errors (fetch_events sv subreddit_name start end_)).
    rewrite fetch_events_date_errors. reflexivity. }
  split; [|split; [|split; [|split; [|split]]]].
  - reflexivity.
  - assert (flat_map source_of
              match surviving sv subreddit_name start end_ with
              | Ok _ => []
              | Raise e => [LogFetchError e]
              end = []) as ->
      by (destruct (surviving sv subreddit_name start end_); reflexivity).
    rewrite app_nil_r. reflexivity.
  - intros st l Hh Hl.
    assert (Hs : surviving sv subreddit_name start end_ = Ok (st :: l)).
    { unfold surviving, live_stage. rewrite Hh, Hl. reflexivity. }
    rewrite Hs. split; [|reflexivity].
    destruct (initialize_s3 sv); reflexivity.
  - intros e Hh Hl.
    assert (Hs : surviving sv subreddit_name start end_ = Raise e).
    { unfold surviving, live_stage. rewrite Hh, Hl. reflexivity. }
    rewrite (Hfail e Hs). unfold window_store. rewrite Hs.
    rewrite app_nil_r. repeat split; reflexivity.
  - intros ids Hl Hsrch.
    assert (Hs : surviving sv subreddit_name start end_
                 = Ok (enriched sv ids)).
    { unfold surviving, archive_search. rewrite Hl, Hsrch. reflexivity. }
    rewrite Hs. split; [|reflexivity].
    destruct (enriched sv ids); [rewrite app_nil_r|];
      destruct (initialize_s3 sv); reflexivity.
  - intros e Hl Hsrch.
    assert (Hs : surviving sv subreddit_name start end_ = Raise e).
    { unfold surviving, archive_search. rewrite Hl, Hsrch. reflexivity. }
    rewrite (Hfail e Hs). unfold window_store. rewrite Hs.
    rewrite app_nil_r. repeat split; reflexivity.
Qed.

(** C2, as the specification states it, fails on the ARCHIVE path. The
    window starts half a second after 2023-01-01 00:00:00; the search is
    made with [after] truncated to the whole second, the archive returns the
    post created at 00:00:00 sharp, and the record is put into the batch of
    the window although it was created before the window starts. *)
Lemma C2_counterexample :
  let start := T0 + 500000 in
  let end_ := T0 + 500000 + DAY in
  let w1 := fst (Historic.process_window sv_archive "test" "bucket"
                   (start, end_) empty_world) in
  exists (key : string) (body : list story) (st : story),
    In (key, body) (batches (trace w1)) /\ In st body /\
    ~ in_window start end_ st.
Proof.
  exists "reddit_data/test/20230101.json", [story_of (post "a1" T0)],
    (story_of (post "a1" T0)).
  split; [vm_compute; left; reflexivity|].
  split; [left; reflexivity|].
  unfold in_window. vm_compute. intros [H _]. apply H. reflexivity.
Qed.

(** C2, amended: every record emitted into the batch of a window by the
    LIVE path satisfies [W.start <= created_at < W.end], and a candidate of
    the listing outside the window is discarded; on the ARCHIVE path the
    batch holds the eligible records of the identifiers the archive search
    returned for the bounds of the window, truncated to whole seconds, and
    their [created_at] is not compared with the window. *)
Theorem C2_live_within_window (sv : services)
  (subreddit_name bucket_name : string) (start end_ : datetime) (w : world) :
  let w1 := fst (Historic.process_window sv subreddit_name bucket_name
                   (start, end_) w) in
  exists new : list (string * list story),
    batches (trace w1) = batches (trace w) ++ new /\
    Forall (fun kb =>
              (live_stage sv subreddit_name start end_ = Ok (snd kb) /\
               Forall (in_window start end_) (snd kb))
              \/
              (live_stage sv subreddit_name start end_ = Ok [] /\
               exists ids,
                 search_submissions sv subreddit_name (int_timestamp start)
                   (int_timestamp end_) = Ok ids /\
                 snd kb = enriched sv ids)) new /\
    (forall l : list story,
       live_yield sv subreddit_name start end_ = Ok l ->
       Forall (in_window start end_) l /\
       forall s : submission,
         ~ (start <= sub_created_utc s < end_) -> ~ In (story_of s) l).
Proof.
  intros w1. subst w1.
  assert (Hlive : forall l : list story,
             live_yield sv subreddit_name start end_ = Ok l ->
             Forall (in_window start end_) l).
  { intros l Hl. apply List.Forall_forall. intros st Hin.
    destruct (live_yield_in _ _ _ _ _ _ Hl Hin) as (s & _ & -> & Hw & _).
    exact Hw. }
  exists (batches (window_events sv subreddit_name bucket_name start end_)).
  split; [|split].
  - rewrite process_window_trace. apply flat_map_app.
  - rewrite window_events_batches.
    destruct (surviving sv subreddit_name start end_) as [[|st l]|e] eqn:Es;
      try constructor.
    destruct (initialize_s3 sv); constructor; [|constructor].
    simpl. unfold surviving in Es.
    destruct (live_stage sv subreddit_name start end_) as [[|st0 l0]|e] eqn:El;
      [| |discriminate].
    + right. split; [reflexivity|].
      unfold archive_search in Es.
      destruct (search_submissions sv subreddit_name (int_timestamp start)
                  (int_timestamp end_)) as [ids|e]; [|discriminate].
      exists ids. split; [reflexivity | congruence].
    + left. injection Es as <- <-. split; [reflexivity|].
      unfold live_stage in El. destruct (in_horizon sv start);
        [|discriminate].
      apply Hlive. exact El.
  - intros l Hl. split; [apply Hlive; exact Hl|].
    intros s Hout Hin.
    pose proof (Hlive l Hl) as Hall.
    rewrite List.Forall_forall in Hall. apply Hall in Hin.
    unfold in_window, story_of in Hin. simpl in Hin. tauto.
Qed.

(** C5: whichever adapter a candidate comes from, a record enters the
    batch of a window only if its body text is not empty and it is not
    flagged as removed: every record of an emitted batch has a non-empty
    text and was built from a submission, of the listing or looked up by an
    identifier of the archive, whose [selftext] is not empty and whose
    [removed_by_category] is not set. *)
Theorem C5_empty_or_removed_excluded (sv : services)
  (subreddit_name bucket_name : string) (start end_ : datetime) (w : world) :
  let w1 := fst (Historic.process_window sv subreddit_name bucket_name
                   (start, end_) w) in
  exists new : list (string * list story),
    batches (trace w1) = batches (trace w) ++ new /\
    Forall (fun kb =>
      Forall (fun st =>
        truthy (text st) = true /\
        exists s : submission,
          (In s (fst (subreddit_new sv subreddit_name 1000%nat)) \/
           exists i, fetch_submission sv i = Ok s) /\
          st = story_of s /\
          truthy (sub_selftext s) = true /\
          truthy_opt (sub_removed_by_category s) = false) (snd kb)) new.
Proof.
  intros w1. subst w1.
  exists (batches (window_events sv subreddit_name bucket_name start end_)).
  split; [rewrite process_window_trace; apply flat_map_app|].
  rewrite window_events_batches.
  destruct (surviving sv subreddit_name start end_) as [[|st0 l]|e] eqn:Es;
    try constructor.
  destruct (initialize_s3 sv); constructor; [|constructor].
  simpl. apply List.Forall_forall. intros st Hin.
  destruct (surviving_in _ _ _ _ _ _ Es Hin)
    as [(_ & s & Hs & -> & _ & He) | (_ & ids & i & s & _ & _ & _ & Hf & He & ->)];
    apply eligible_true in He as [Hr Ht].
  - split; [exact Ht|]. exists s. tauto.
  - split; [exact Ht|]. exists s. split; [right; exists i; exact Hf | tauto].
Qed.

(** C7: on the ARCHIVE path a detail lookup that fails is skipped and
    logged, and nothing else is lost. The loop over the identifiers always
    ends normally, with one [LogSubmissionError] per failed identifier, and
    adds exactly the successfully enriched records, in order. When the
    archive is searched for a window and the storage client can be built,
    the window does not fail and its batch is the list of all the enriched
    records (no batch when there is none). *)
Theorem C7_lookup_failure_skipped (sv : services)
  (subreddit_name bucket_name : string) (start end_ : datetime)
  (ids : list string) (stories : list story) (w : world) :
  let w1 := fst (Historic.process_window sv subreddit_name bucket_name
                   (start, end_) w) in
  Historic.archive_loop sv ids stories w =
    (mkWorld (store w) (trace w ++ lookup_events sv ids),
     Ok (stories ++ enriched sv ids)) /\
  (forall (i : string) (e : exn),
     In i ids -> item_outcome sv i = Raise e ->
     In (LogSubmissionError i e) (lookup_events sv ids) /\
     enriched_item sv i = []) /\
  (forall (i : string) (st : story),
     In i ids -> item_outcome sv i = Ok (Some st) ->
     In st (enriched sv ids)) /\
  (live_stage sv subreddit_name start end_ = Ok [] ->
   search_submissions sv subreddit_name (int_timestamp start)
     (int_timestamp end_) = Ok ids ->
   initialize_s3 sv = Ok tt ->
   date_errors (trace w1) = date_errors (trace w) /\
   batches (trace w1) =
     batches (trace w) ++
     match enriched sv ids with
     | [] => []
     | st :: l => [(s3_key subreddit_name start, st :: l)]
     end).
Proof.
  intros w1. subst w1. split; [apply archive_loop_run|].
  split; [|split].
  - intros i e Hin Ho. split.
    + unfold lookup_events. apply in_flat_map. exists i.
      split; [exact Hin|]. unfold lookup_item_events. rewrite Ho.
      right. left. reflexivity.
    + unfold enriched_item. rewrite Ho. reflexivity.
  - intros i st Hin Ho. unfold enriched. apply in_flat_map. exists i.
    split; [exact Hin|]. unfold enriched_item. rewrite Ho.
    left. reflexivity.
  - intros Hl Hs Hs3. rewrite process_window_trace.
    unfold date_errors, batches. rewrite !flat_map_app.
    fold (batches (window_events sv subreddit_name bucket_name start end_)).
    rewrite window_events_batches.
    assert (Hsurv : surviving sv subreddit_name start end_
                    = Ok (enriched sv ids)).
    { unfold surviving, archive_search. rewrite Hl, Hs. reflexivity. }
    rewrite Hsurv, Hs3. split; [|reflexivity].
    unfold window_events. rewrite flat_map_app.
    fold (date_errors (fetch_events sv subreddit_name start end_)).
    rewrite fetch_events_date_errors, Hsurv. simpl.
    unfold emit_events. rewrite Hs3.
    destruct (enriched sv ids); simpl; [rewrite app_nil_r; reflexivity|].
    destruct (put_object sv bucket_name _); simpl;
      rewrite app_nil_r; reflexivity.
Qed.

(** C8: for every window in which no record survives the fetch phase,
    nothing is written: the store is left as it was, no batch is handed to
    the blob store, and the window ends normally with the line "No stories
    found" and no error. The DAG task [upload_to_s3] returns at once on an
    empty list, leaving the world as it was. *)
Theorem C8_nothing_written_when_empty (sv : services) (af : Dag.airflow)
  (subreddit_name bucket_name date_str : string) (start end_ : datetime)
  (w : world) :
  surviving sv subreddit_name start end_ = Ok [] ->
  let r := Historic.process_window sv subreddit_name bucket_name
             (start, end_) w in
  snd r = Ok tt /\
  store (fst r) = store w /\
  batches (trace (fst r)) = batches (trace w) /\
  date_errors (trace (fst r)) = date_errors (trace w) /\
  In (LogNoStories start) (trace (fst r)) /\
  Dag.upload_to_s3 af [] subreddit_name date_str w = (w, Ok tt).
Proof.
  intros Hs r. subst r. rewrite process_window_run. simpl.
  unfold window_store, window_events. rewrite Hs. simpl.
  unfold batches, date_errors. rewrite !flat_map_app.
  fold (batches (fetch_events sv subreddit_name start end_)).
  fold (date_errors (fetch_events sv subreddit_name start end_)).
  rewrite fetch_events_batches, fetch_events_date_errors. simpl.
  rewrite !app_nil_r.
  split; [reflexivity|].
  split; [unfold emit_store; destruct (initialize_s3 sv); reflexivity|].
  split; [reflexivity|]. split; [reflexivity|].
  split; [|reflexivity].
  apply in_or_app. right. apply in_or_app. right. left. reflexivity.
Qed.

Lemma C8_nothing_written_when_empty_witness :
  let r := Historic.process_window sv_quiet "test" "bucket"
             (T0, T0 + DAY) empty_world in
  snd r = Ok tt /\
  store (fst r) = store empty_world /\
  batches (trace (fst r)) = batches (trace empty_world) /\
  date_errors (trace (fst r)) = date_errors (trace empty_world) /\
  In (LogNoStories T0) (trace (fst r)) /\
  Dag.upload_to_s3
    {| Dag.variable_get := fun _ => Ok "bucket";
       Dag.load_string := fun _ _ => Ok tt |}
    [] "test" "20230101" empty_world = (empty_world, Ok tt).
Proof.
  apply (C8_nothing_written_when_empty sv_quiet _ "test" "bucket" "20230101"
           T0 (T0 + DAY) empty_world).
  reflexivity.
Defined.

(** ** The whole run *)

Lemma get_date_range_nth (start_date end_date : datetime) (w : window) :
  In w (fst (get_date_range start_date end_date)) ->
  exists i : Z,
    0 <= i /\ w = (start_date + i * DAY, start_date + (i + 1) * DAY).
Proof.
  apply contiguous_nth. apply get_date_range_contiguous.
Qed.

(** C3, as the specification states it, fails: the run keeps no set of
    emitted identifiers. The run starts half a second after midnight; the
    post [a1], created at the next midnight sharp, lies in the first window
    and the LIVE pass emits it there; in the second window the LIVE pass
    finds nothing, the archive is searched from the start of the window
    truncated to the whole second, returns [a1], and the post is emitted
    again in the batch of the second day. *)
Lemma C3_counterexample :
  let w1 := fst (Historic.download_subreddit_by_date (Ok tt)
                   (fun _ => sv_boundary) "test" "bucket"
                   (T0 + 500000) (T0 + 500000 + 2 * DAY) empty_world) in
  exists (k1 k2 : string) (b1 b2 : list story) (st1 st2 : story),
    k1 <> k2 /\
    In (k1, b1) (batches (trace w1)) /\ In (k2, b2) (batches (trace w1)) /\
    In st1 b1 /\ In st2 b2 /\ id st1 = id st2.
Proof.
  exists "reddit_data/test/20230101.json", "reddit_data/test/20230102.json",
    [story_of (post "a1" (T0 + DAY))], [story_of (post "a1" (T0 + DAY))],
    (story_of (post "a1" (T0 + DAY))), (story_of (post "a1" (T0 + DAY))).
  split; [discriminate|].
  split; [vm_compute; left; reflexivity|].
  split; [vm_compute; right; left; reflexivity|].
  split; [left; reflexivity|].
  split; [left; reflexivity | reflexivity].
Qed.

(** C3, amended: the run keeps no set of emitted identifiers and drops no
    record for having been emitted before. On the LIVE path a record is
    emitted only in the window that contains its [created_at]; so, when a
    post has the same [created_utc] whenever the listing shows it, the LIVE
    results of two different windows of one run share no identifier. A
    record that the LIVE pass emitted in one window is emitted again when
    the archive search of another window returns its identifier. *)
Theorem C3_live_results_share_no_id (env : datetime -> services)
  (subreddit_name : string) (start_date end_date : datetime)
  (w1 w2 : window) (l1 l2 : list story) (st1 st2 : story) :
  In w1 (fst (get_date_range start_date end_date)) ->
  In w2 (fst (get_date_range start_date end_date)) ->
  w1 <> w2 ->
  (forall a b : submission,
     In a (fst (subreddit_new (env (fst w1)) subreddit_name 1000%nat)) ->
     In b (fst (subreddit_new (env (fst w2)) subreddit_name 1000%nat)) ->
     sub_id a = sub_id b -> sub_created_utc a = sub_created_utc b) ->
  live_yield (env (fst w1)) subreddit_name (fst w1) (snd w1) = Ok l1 ->
  live_yield (env (fst w2)) subreddit_name (fst w2) (snd w2) = Ok l2 ->
  In st1 l1 -> In st2 l2 ->
  id st1 <> id st2.
Proof.
  intros H1 H2 Hne Hstable Hl1 Hl2 Hin1 Hin2 Hid.
  destruct (get_date_range_nth _ _ _ H1) as (i & Hi & ->).
  destruct (get_date_range_nth _ _ _ H2) as (j & Hj & ->).
  simpl in *.
  destruct (live_yield_in _ _ _ _ _ _ Hl1 Hin1) as (a & Ha & -> & Hwa & _).
  destruct (live_yield_in _ _ _ _ _ _ Hl2 Hin2) as (b & Hb & -> & Hwb & _).
  simpl in Hid. pose proof (Hstable a b Ha Hb Hid) as Hc.
  assert (i = j); [|subst j; apply Hne; reflexivity].
  rewrite Hc in Hwa. unfold DAY in *. lia.
Qed.

Lemma C3_live_results_share_no_id_witness :
  id (story_of (post "a1" (T0 + 100))) <>
  id (story_of (post "b2" (T0 + DAY + 100))).
Proof.
  apply (C3_live_results_share_no_id (fun _ => sv_live) "test"
           T0 (T0 + 2 * DAY) (T0, T0 + DAY) (T0 + DAY, T0 + 2 * DAY)
           [story_of (post "a1" (T0 + 100))]
           [story_of (post "b2" (T0 + DAY + 100))]).
  - vm_compute. left. reflexivity.
  - vm_compute. right. left. reflexivity.
  - discriminate.
  - intros a b Ha Hb Hid. simpl in Ha, Hb.
    destruct Ha as [<- | [<- | []]]; destruct Hb as [<- | [<- | []]];
      try reflexivity; discriminate Hid.
  - reflexivity.
  - reflexivity.
  - left. reflexivity.
  - left. reflexivity.
Defined.

(** C6, as the specification states it, fails: a credential failure of the
    Reddit client inside a window is caught by the handler of the window
    like any other exception. Over two days on which every listing fails
    with [OAuthException], the run logs the failure of the first day, goes
    on to the second and ends normally. *)
Lemma C6_counterexample :
  let r := Historic.download_subreddit_by_date (Ok tt) (fun _ => sv_auth)
             "test" "bucket" T0 (T0 + 2 * DAY) empty_world in
  snd r = Ok tt /\
  trace (fst r) =
    [CallSubredditNew "test" 1000; LogDateError T0 OAuthException;
     CallSubredditNew "test" 1000; LogDateError (T0 + DAY) OAuthException].
Proof. split; vm_compute; reflexivity. Qed.

(** C6, amended: every exception raised while a window is processed, a
    credential or authentication failure of the source client included, is
    absorbed: a failed detail lookup is logged and skipped, any other
    failure is logged for the window, every window ends normally and the run
    goes through all the windows of the range. Only what is raised outside
    the handler of the window reaches the caller: the construction of the
    Reddit client from the environment, and the date arithmetic of the
    window generator. *)
Theorem C6_window_errors_absorbed (initialize_reddit : result unit)
  (env : datetime -> services) (subreddit_name bucket_name : string)
  (start_date end_date : datetime) (w : world)
  (sv : services) (start end_ : datetime) (w0 : world) :
  let r := Historic.download_subreddit_by_date initialize_reddit env
             subreddit_name bucket_name start_date end_date w in
  let r0 := Historic.process_window sv subreddit_name bucket_name
              (start, end_) w0 in
  snd r0 = Ok tt /\
  (forall e : exn,
     surviving sv subreddit_name start end_ = Raise e ->
     In (LogDateError start e) (trace (fst r0))) /\
  (forall e : exn, initialize_reddit = Raise e -> r = (w, Raise e)) /\
  (initialize_reddit = Ok tt ->
   windows_closed (trace (fst r)) =
     (windows_closed (trace w) +
      length (fst (get_date_range start_date end_date)))%nat /\
   snd r = match snd (get_date_range start_date end_date) with
           | Some e => Raise e
           | None => Ok tt
           end).
Proof.
  intros r r0. subst r r0.
  rewrite process_window_run, download_run.
  split; [reflexivity|]. split; [|split].
  - intros e He. simpl. unfold window_events. rewrite He.
    apply in_or_app. right. apply in_or_app. right. left. reflexivity.
  - intros e ->. reflexivity.
  - intros ->.
    destruct (get_date_range start_date end_date) as [ws failure]. simpl.
    unfold windows_closed. rewrite flat_map_app, length_app.
    fold (windows_closed (run_events env subreddit_name bucket_name ws)).
    rewrite run_events_closed. split; reflexivity.
Qed.

(** C10: whatever the fetch and upload steps do, [run_pipeline] returns a
    response and raises nothing: statusCode 200 with the count of processed
    stories when both steps end normally (the upload is skipped for an empty
    list), statusCode 500 with the message of the exception when one of
    them raises. [lambda_handler] returns that response once the pipeline
    object is constructed. *)
Theorem C10_run_pipeline_always_responds (fetch_stories : M (list story))
  (upload_to_s3 : list story -> M unit) (w : world) :
  snd (Lambda.run_pipeline fetch_stories upload_to_s3 w) =
    Ok match steps_outcome fetch_stories upload_to_s3 w with
       | Ok n => success_response n
       | Raise e => failure_response e
       end /\
  Lambda.lambda_handler fetch_stories upload_to_s3 (Ok tt) w =
    Lambda.run_pipeline fetch_stories upload_to_s3 w.
Proof.
  split; [|reflexivity].
  unfold Lambda.run_pipeline, steps_outcome, try_except, bind.
  destruct (fetch_stories w) as [w1 [[|st l]|e]]; try reflexivity.
  destruct (upload_to_s3 (st :: l) w1) as [w2 [[]|e]]; reflexivity.
Qed.

(** * Further properties of the code *)

(** ** [get_date_range] on any input *)

Lemma add_one_day_cases (c : datetime) :
  (add_one_day c = Ok (c + DAY) /\ MINDT <= c + DAY <= MAXDT) \/
  (add_one_day c = Raise OverflowError /\ ~ (MINDT <= c + DAY <= MAXDT)).
Proof.
  unfold add_one_day.
  destruct (Z.leb_spec MINDT (c + DAY)); destruct (Z.leb_spec (c + DAY) MAXDT);
    simpl; [left | right | right | right]; split; try reflexivity; lia.
Qed.

Lemma get_date_range_shape (n : nat) :
  forall start_date end_date : datetime,
    end_date - start_date <= Z.of_nat n * DAY ->
    let r := get_date_range start_date end_date in
    contiguous_from start_date (fst r) /\
    Forall (fun w => fst w < end_date /\ MINDT <= snd w <= MAXDT) (fst r) /\
    ((snd r = None /\ end_date <= last_end start_date (fst r)) \/
     (snd r = Some OverflowError /\
      last_end start_date (fst r) < end_date /\
      ~ (MINDT <= last_end start_date (fst r) + DAY <= MAXDT))).
Proof.
  induction n as [|n IH]; intros s e Hn; cbv zeta.
  - rewrite get_date_range_empty by lia. simpl.
    split; [exact I|]. split; [constructor|]. left. split; [reflexivity|lia].
  - destruct (Z.lt_ge_cases s e) as [Hlt|Hge].
    + rewrite get_date_range_unfold.
      destruct (Z.ltb_spec s e); [|lia].
      destruct (add_one_day_cases s) as [[-> Hr] | [-> Hr]].
      * specialize (IH (s + DAY) e). cbv zeta in IH.
        destruct (get_date_range (s + DAY) e) as [ws x]. simpl in *.
        destruct IH as (Hc & Hf & Hx); [unfold DAY in *; lia|].
        split; [auto|]. split; [|exact Hx].
        constructor; [simpl; lia | exact Hf].
      * simpl. split; [exact I|]. split; [constructor|].
        right. split; [reflexivity|]. split; [lia | exact Hr].
    + rewrite get_date_range_empty by lia. simpl.
      split; [exact I|]. split; [constructor|].
      left. split; [reflexivity|lia].
Qed.

(** X1: whatever the bounds, the windows the generator yields are chained
    one-day windows from [start_date], each starting before [end_date] and
    ending within the range of [datetime]; the generator either ends
    normally, having reached [end_date], or raises [OverflowError] at the
    first window whose end would leave the range of [datetime], before
    [end_date] is reached. It raises nothing else. *)
Theorem get_date_range_wellformed (start_date end_date : datetime) :
  let r := get_date_range start_date end_date in
  contiguous_from start_date (fst r) /\
  Forall (fun w => fst w < end_date /\ MINDT <= snd w <= MAXDT) (fst r) /\
  ((snd r = None /\ end_date <= last_end start_date (fst r)) \/
   (snd r = Some OverflowError /\
    last_end start_date (fst r) < end_date /\
    ~ (MINDT <= last_end start_date (fst r) + DAY <= MAXDT))).
Proof.
  apply (get_date_range_shape (Z.to_nat (end_date - start_date))).
  unfold DAY. lia.
Qed.

(** X2: within the range of [datetime] the number of windows is the number
    of days of the range, rounded up, and the i-th window runs from
    [start_date + i days] to [start_date + (i + 1) days]. *)
Theorem get_date_range_count (start_date end_date : datetime) :
  start_date < end_date ->
  MINDT <= start_date -> end_date + DAY <= MAXDT + 1 ->
  let ws := fst (get_date_range start_date end_date) in
  length ws = Z.to_nat ((end_date - start_date + DAY - 1) / DAY) /\
  forall (i : nat) (w : window),
    nth_error ws i = Some w ->
    w = (start_date + Z.of_nat i * DAY, start_date + (Z.of_nat i + 1) * DAY).
Proof.
  intros Hlt Hmin Hmax ws. subst ws.
  destruct (get_date_range_spec start_date end_date Hmin Hmax)
    as (ws & -> & Hc & Hl).
  specialize (Hl Hlt). simpl. split.
  - pose proof (contiguous_last_end _ _ Hc) as Hlen.
    apply Nat2Z.inj. rewrite Z2Nat.id
      by (apply Z.div_pos; unfold DAY; lia).
    apply Z.div_unique_pos
      with (r := end_date - start_date + DAY - 1
                 - DAY * Z.of_nat (length ws));
      unfold DAY in *; lia.
  - clear Hl Hlt Hmin Hmax. revert start_date Hc.
    induction ws as [|[a b] ws IH]; intros s Hc i w Hn.
    + destruct i; discriminate.
    + destruct Hc as (-> & -> & Hc). destruct i as [|i]; simpl in Hn.
      * injection Hn as <-. f_equal; lia.
      * rewrite (IH _ Hc i w Hn). f_equal; lia.
Qed.

Lemma get_date_range_count_witness :
  let ws := fst (get_date_range T0 (T0 + 5 * DAY)) in
  length ws = Z.to_nat ((T0 + 5 * DAY - T0 + DAY - 1) / DAY) /\
  forall (i : nat) (w : window),
    nth_error ws i = Some w ->
    w = (T0 + Z.of_nat i * DAY, T0 + (Z.of_nat i + 1) * DAY).
Proof.
  apply (get_date_range_count T0 (T0 + 5 * DAY)).
  - vm_compute. reflexivity.
  - vm_compute. discriminate.
  - vm_compute. discriminate.
Defined.

(** ** The store *)

(** X3: a failed write never fails the window. [upload_to_s3] of the
    historic pull raises only when the S3 client cannot be built, and then
    before any call to S3. Otherwise it calls [put_object] once, with the
    key [reddit_data/<subreddit>/<date>.json] and the records, and returns
    normally whatever the call does: the status of the answer is logged, an
    exception is logged and swallowed. So a window whose records are handed
    to a client that could be built is never logged as failed. *)
Theorem put_failure_is_swallowed (sv : services) (df : list story)
  (bucket_name subreddit_name date_str : string) (start end_ : datetime)
  (w : world) :
  let key :=
    "reddit_data/" +:+ subreddit_name +:+ "/" +:+ date_str +:+ ".json" in
  let r := Historic.upload_to_s3 sv df bucket_name subreddit_name date_str w in
  let h := Historic.process_window sv subreddit_name bucket_name
             (start, end_) w in
  match initialize_s3 sv with
  | Raise e => r = (w, Raise e)
  | Ok _ =>
      snd r = Ok tt /\
      trace (fst r) =
        trace w ++
        [CallPutObject bucket_name key df;
         match put_object sv bucket_name key with
         | Ok status => LogUploadStatus status
         | Raise e => LogUploadError e
         end] /\
      (forall (st : story) (l : list story),
         surviving sv subreddit_name start end_ = Ok (st :: l) ->
         date_errors (trace (fst h)) = date_errors (trace w) /\
         batches (trace (fst h)) =
           batches (trace w) ++ [(s3_key subreddit_name start, st :: l)])
  end.
Proof.
  intros key r h. subst key r h.
  unfold Historic.upload_to_s3, bind, try_except, lift, emit, store_blob, ret.
  destruct (initialize_s3 sv) as [[]|e] eqn:Es3; [|reflexivity].
  split; [|split].
  - simpl. destruct (put_object sv bucket_name _) as [status|e];
      [destruct (status =? 200)|]; reflexivity.
  - simpl. destruct (put_object sv bucket_name _) as [status|e]; simpl;
      [destruct (status =? 200); simpl|]; rewrite <- app_assoc; reflexivity.
  - intros st l Hs. rewrite process_window_run. cbn [fst trace].
    unfold date_errors, batches. rewrite !flat_map_app.
    fold (batches (window_events sv subreddit_name bucket_name start end_)).
    rewrite window_events_batches, Hs, Es3. split; [|reflexivity].
    unfold window_events. rewrite flat_map_app, Hs.
    fold (date_errors (fetch_events sv subreddit_name start end_)).
    rewrite fetch_events_date_errors. unfold emit_events. rewrite Es3.
    destruct (put_object sv bucket_name _); simpl; rewrite app_nil_r;
      reflexivity.
Qed.

Lemma window_store_write (sv : services)
  (subreddit_name bucket_name : string) (start end_ : datetime)
  (st : gmap string (list story)) :
  window_store sv subreddit_name bucket_name start end_ st =
  apply_write (window_write sv subreddit_name bucket_name start end_) st.
Proof.
  unfold window_store, window_write, emit_store, apply_write.
  destruct (surviving sv subreddit_name start end_) as [[|s l]|e];
    try reflexivity;
    destruct (initialize_s3 sv); try reflexivity;
    destruct (put_object sv bucket_name _) as [status|]; try reflexivity;
    destruct (status =? 200); reflexivity.
Qed.

Lemma run_store_lookup (env : datetime -> services)
  (subreddit_name bucket_name : string) (ws : list window) (k : string) :
  forall st : gmap string (list story),
    run_store env subreddit_name bucket_name ws st !! k =
    written (run_writes env subreddit_name bucket_name ws) k (st !! k).
Proof.
  induction ws as [|w ws IH]; intros st; [reflexivity|].
  unfold run_store, run_writes, written in *. simpl.
  rewrite IH, window_store_write. f_equal.
  unfold apply_write.
  destruct (window_write (env (fst w)) subreddit_name bucket_name
              (fst w) (snd w)) as [[k' v]|]; [|reflexivity].
  rewrite lookup_insert. destruct (decide (k' = k)); reflexivity.
Qed.


Lemma written_untouched (os : list (option (string * list story)))
  (k : string) :
  (forall k' v, In (Some (k', v)) os -> k' <> k) ->
  forall d, written os k d = d.
Proof.
  induction os as [|o os IH]; intros Hk d; [reflexivity|].
  unfold written in *. simpl. rewrite IH.
  - destruct o as [[k' v]|]; [|reflexivity].
    destruct (decide (k' = k)) as [Heq|]; [|reflexivity].
    exfalso. apply (Hk k' v); [left; reflexivity | exact Heq].
  - intros k' v Hin. apply (Hk k' v). right. exact Hin.
Qed.

Lemma written_is_Some (os : list (option (string * list story)))
  (k : string) :
  forall d, is_Some d -> is_Some (written os k d).
Proof.
  induction os as [|o os IH]; intros d Hd; [exact Hd|].
  unfold written in *. simpl. apply IH.
  destruct o as [[k' v]|]; [|exact Hd].
  destruct (decide (k' = k)); [eexists; reflexivity | exact Hd].
Qed.

Lemma run_writes_key (env : datetime -> services)
  (subreddit_name bucket_name : string) (ws : list window)
  (k : string) (v : list story) :
  In (Some (k, v)) (run_writes env subreddit_name bucket_name ws) ->
  exists w, In w ws /\ k = s3_key subreddit_name (fst w) /\ v <> [].
Proof.
  unfold run_writes. intros H. apply in_map_iff in H as (w & Hw & Hin).
  exists w. split; [exact Hin|]. unfold window_write in Hw.
  destruct (surviving _ _ _ _) as [[|s l]|e]; try discriminate;
    destruct (initialize_s3 _); try discriminate;
    destruct (put_object _ _ _) as [status|]; try discriminate;
    destruct (status =? 200); try discriminate.
  injection Hw as <- <-. split; [reflexivity | discriminate].
Qed.


(** X5: a run writes nowhere but under the keys of the windows of its
    range: a key that is the key of none of them holds after the run what
    it held before. And a run deletes nothing: a key that held a document
    before the run holds one after it. *)
Theorem run_store_frame (initialize_reddit : result unit)
  (env : datetime -> services) (subreddit_name bucket_name : string)
  (start_date end_date : datetime) (w : world) (k : string) :
  (forall win, In win (fst (get_date_range start_date end_date)) ->
               k <> s3_key subreddit_name (fst win)) ->
  let r := Historic.download_subreddit_by_date initialize_reddit env
             subreddit_name bucket_name start_date end_date w in
  store (fst r) !! k = store w !! k /\
  forall k' : string, is_Some (store w !! k') -> is_Some (store (fst r) !! k').
Proof.
  intros Hk r. subst r. rewrite download_run.
  destruct initialize_reddit as [[]|e]; [|split; auto].
  destruct (get_date_range start_date end_date) as [ws failure]. simpl in *.
  split.
  - rewrite run_store_lookup. apply written_untouched.
    intros k' v Hin Heq. subst k'.
    destruct (run_writes_key _ _ _ _ _ _ Hin) as (win & Hwin & Hkey & _).
    exact (Hk win Hwin Hkey).
  - intros k' Hs. rewrite run_store_lookup. apply written_is_Some. exact Hs.
Qed.

Lemma run_store_frame_witness :
  let r := Historic.download_subreddit_by_date (Ok tt) (fun _ => sv_live)
             "test" "bucket" T0 (T0 + 2 * DAY) empty_world in
  store (fst r) !! "reddit_data/other/20230101.json" =
    store empty_world !! "reddit_data/other/20230101.json" /\
  forall k' : string,
    is_Some (store empty_world !! k') -> is_Some (store (fst r) !! k').
Proof.
  apply (run_store_frame (Ok tt) (fun _ => sv_live) "test" "bucket"
           T0 (T0 + 2 * DAY) empty_world "reddit_data/other/20230101.json").
  intros win Hin. vm_compute in Hin.
  destruct Hin as [<- | [<- | []]]; vm_compute; discriminate.
Defined.

(** ** Failures inside a window *)

Lemma live_loop_failure (start end_ : datetime) (e : exn)
  (subs : list submission) :
  forall acc : list story,
    Historic.live_loop start end_ subs (Some e) acc = Raise e \/
    Historic.live_loop start end_ subs (Some e) acc = Raise ValueError.
Proof.
  induction subs as [|s subs IH]; intros acc; simpl; [left; reflexivity|].
  unfold fromtimestamp.
  destruct ((MINDT <=? sub_created_utc s) && (sub_created_utc s <=? MAXDT));
    [|right; reflexivity].
  destruct (_ && _); [destruct (eligible s)|]; apply IH.
Qed.

(** X6: a listing that breaks off loses the whole window. When the window is
    within the horizon and the iteration over [subreddit.new] ends with an
    exception, the records collected so far are dropped: the archive is not
    tried, nothing is handed to the blob store, the store is left as it was,
    and the window is logged as failed, with that exception or with the
    [ValueError] of a timestamp met before it. *)
Theorem broken_listing_loses_window (sv : services)
  (subreddit_name bucket_name : string) (start end_ : datetime) (w : world)
  (e : exn) :
  (timedelta_days (now sv) start <? 90) = true ->
  snd (subreddit_new sv subreddit_name 1000%nat) = Some e ->
  let r := Historic.process_window sv subreddit_name bucket_name
             (start, end_) w in
  store (fst r) = store w /\
  batches (trace (fst r)) = batches (trace w) /\
  sources_queried (trace (fst r)) = sources_queried (trace w) ++ [LIVE] /\
  (In (LogDateError start e) (trace (fst r)) \/
   In (LogDateError start ValueError) (trace (fst r))).
Proof.
  intros Hh Hf r. subst r. rewrite process_window_run. simpl.
  assert (Hy : live_yield sv subreddit_name start end_ = Raise e \/
               live_yield sv subreddit_name start end_ = Raise ValueError).
  { unfold live_yield.
    destruct (subreddit_new sv subreddit_name 1000) as [subs failure].
    simpl in Hf. subst failure. apply live_loop_failure. }
  assert (Hs : exists x, (x = e \/ x = ValueError) /\
                         live_yield sv subreddit_name start end_ = Raise x).
  { destruct Hy as [Hy|Hy]; [exists e | exists ValueError]; split; auto. }
  destruct Hs as (x & Hx & Hy').
  assert (Hsurv : surviving sv subreddit_name start end_ = Raise x).
  { unfold surviving, live_stage, in_horizon. rewrite Hh, Hy'. reflexivity. }
  split; [unfold window_store; rewrite Hsurv; reflexivity|].
  unfold batches, sources_queried. rewrite !flat_map_app.
  fold (batches (window_events sv subreddit_name bucket_name start end_)).
  fold (sources_queried
          (window_events sv subreddit_name bucket_name start end_)).
  rewrite window_events_batches, window_events_sources, Hsurv.
  unfold in_horizon. rewrite Hh, Hy', app_nil_r.
  split; [reflexivity|]. split; [reflexivity|].
  assert (In (LogDateError start x)
             (trace w ++
              window_events sv subreddit_name bucket_name start end_)).
  { unfold window_events. rewrite Hsurv.
    apply in_or_app. right. apply in_or_app. right. left. reflexivity. }
  destruct Hx as [-> | ->]; [left | right]; assumption.
Qed.

Lemma broken_listing_loses_window_witness :
  let r := Historic.process_window sv_auth "test" "bucket"
             (T0, T0 + DAY) empty_world in
  store (fst r) = store empty_world /\
  batches (trace (fst r)) = batches (trace empty_world) /\
  sources_queried (trace (fst r)) =
    sources_queried (trace empty_world) ++ [LIVE] /\
  (In (LogDateError T0 OAuthException) (trace (fst r)) \/
   In (LogDateError T0 ValueError) (trace (fst r))).
Proof.
  apply (broken_listing_loses_window sv_auth "test" "bucket" T0 (T0 + DAY)
           empty_world OAuthException); reflexivity.
Defined.

Lemma lookup_events_lookups (sv : services) (ids : list string) :
  lookups (lookup_events sv ids) = ids.
Proof.
  induction ids as [|i ids IH]; [reflexivity|].
  unfold lookup_events, lookups in *. simpl.
  rewrite flat_map_app, IH. unfold lookup_item_events.
  destruct (item_outcome sv i); reflexivity.
Qed.

Lemma enriched_length (sv : services) (ids : list string) :
  (length (enriched sv ids) <= length ids)%nat.
Proof.
  induction ids as [|i ids IH]; [reflexivity|].
  unfold enriched in *. simpl. rewrite length_app.
  unfold enriched_item at 1.
  destruct (item_outcome sv i) as [[st|]|e]; simpl; lia.
Qed.

(** X7: the loop over the identifiers of the archive looks every identifier
    up exactly once, in the order the archive gave them, whatever the
    lookups answer: a failure does not stop the loop and nothing is retried.
    It leaves the store as it was and adds at most one record per
    identifier. *)
Theorem archive_loop_looks_up_each_once (sv : services) (ids : list string)
  (stories : list story) (w : world) :
  let r := Historic.archive_loop sv ids stories w in
  lookups (trace (fst r)) = lookups (trace w) ++ ids /\
  store (fst r) = store w /\
  exists added : list story,
    snd r = Ok (stories ++ added) /\ (length added <= length ids)%nat.
Proof.
  intros r. subst r. rewrite archive_loop_run. simpl.
  unfold lookups. rewrite flat_map_app.
  fold (lookups (lookup_events sv ids)). rewrite lookup_events_lookups.
  split; [reflexivity|]. split; [reflexivity|].
  exists (enriched sv ids). split; [reflexivity | apply enriched_length].
Qed.

(** ** The DAG task and the historic pull *)

(** X8: for the same window and the same answers of the services, the DAG
    task [fetch_reddit_data] and the body of the loop of the historic pull
    agree. The records the task returns are the batch the historic pull
    hands to the blob store (none when the list is empty); where the task
    logs and re-raises an exception, the historic pull logs the window as
    failed with that exception and hands over nothing. The task itself never
    touches the store. *)
Theorem dag_fetch_agrees_with_historic (sv : services)
  (subreddit_name bucket_name : string) (start end_ : datetime) (w : world) :
  let r := Dag.fetch_reddit_data (Ok tt) sv subreddit_name start end_ w in
  let h := Historic.process_window sv subreddit_name bucket_name
             (start, end_) w in
  store (fst r) = store w /\
  match snd r with
  | Ok [] =>
      batches (trace (fst h)) = batches (trace w) /\
      In (LogNoStories start) (trace (fst h))
  | Ok (st :: l) =>
      batches (trace (fst h)) =
        batches (trace w) ++
        match initialize_s3 sv with
        | Ok _ => [(s3_key subreddit_name start, st :: l)]
        | Raise _ => []
        end
  | Raise e =>
      In (LogFetchError e) (trace (fst r)) /\
      In (LogDateError start e) (trace (fst h)) /\
      batches (trace (fst h)) = batches (trace w)
  end.
Proof.
  intros r h. subst r h. rewrite dag_fetch_run, process_window_run. simpl.
  split; [reflexivity|].
  unfold batches. rewrite !flat_map_app.
  fold (batches (window_events sv subreddit_name bucket_name start end_)).
  rewrite window_events_batches. unfold window_events.
  destruct (surviving sv subreddit_name start end_) as [[|st l]|e]; simpl.
  - rewrite app_nil_r. split; [destruct (initialize_s3 sv); reflexivity|].
    apply in_or_app. right. apply in_or_app. right. left. reflexivity.
  - destruct (initialize_s3 sv); reflexivity.
  - rewrite app_nil_r. split; [|split].
    + apply in_or_app. right. apply in_or_app. right. left. reflexivity.
    + apply in_or_app. right. apply in_or_app. right. left. reflexivity.
    + destruct (initialize_s3 sv); reflexivity.
Qed.

(** X9: [upload_to_s3] of the DAG, on a non-empty list. When the Airflow
    Variable of the bucket cannot be read, the task raises before any call
    to S3 and leaves the world as it was; when [load_string] raises, the
    task raises and the store is left as it was; otherwise the list is
    stored under [reddit_data/<subreddit>/<date>.json], replacing what was
    there, and every other key is left as it was. *)
Theorem dag_upload_outcome (af : Dag.airflow) (st : story) (l : list story)
  (subreddit_name date_str : string) (w : world) :
  let key :=
    "reddit_data/" +:+ subreddit_name +:+ "/" +:+ date_str +:+ ".json" in
  let r := Dag.upload_to_s3 af (st :: l) subreddit_name date_str w in
  match Dag.variable_get af "s3_bucket_name" with
  | Raise e => r = (w, Raise e)
  | Ok bucket_name =>
      batches (trace (fst r)) = batches (trace w) ++ [(key, st :: l)] /\
      match Dag.load_string af bucket_name key with
      | Raise e => snd r = Raise e /\ store (fst r) = store w
      | Ok _ =>
          snd r = Ok tt /\
          store (fst r) !! key = Some (st :: l) /\
          forall k : string, k <> key -> store (fst r) !! k = store w !! k
      end
  end.
Proof.
  intros key r. subst key r.
  unfold Dag.upload_to_s3, bind, lift, emit, store_blob.
  destruct (Dag.variable_get af "s3_bucket_name") as [bucket|e];
    [|reflexivity].
  simpl.
  destruct (Dag.load_string af bucket _) as [[]|e]; simpl.
  - split; [unfold batches; rewrite flat_map_app; reflexivity|].
    split; [reflexivity|]. split; [apply lookup_insert_eq|].
    intros k Hk. apply lookup_insert_ne. congruence.
  - split; [unfold batches; rewrite flat_map_app; reflexivity|].
    split; reflexivity.
Qed.

(** ** The Lambda entry point *)



(** ** The stand-alone pipeline *)

(** The key of [test_upload_to_s3]: no subreddit configured, 2025-01-09. *)
Example script_key_of_the_test :
  script_key {| Script.now := 1736380800000000;
                Script.subreddit_hot := fun _ _ => ([], None);
                Script.put_object := fun _ _ => Ok tt |}
             {| Script.bucket_name := None; Script.subreddit_name := None |}
  = "raw/reddit_stories_None_2025-01-09.json".
Proof. reflexivity. Qed.

Lemma hot_loop_run (failure : option exn) (subs : list submission) :
  forall acc : list Script.hot_story,
    Script.hot_loop subs failure acc =
    match failure with
    | Some e => Raise e
    | None => Ok (acc ++ map Script.make_hot_story subs)
    end.
Proof.
  induction subs as [|s subs IH]; intros acc; simpl.
  - destruct failure; [reflexivity|]. rewrite app_nil_r. reflexivity.
  - rewrite IH. destruct failure; [reflexivity|].
    rewrite <- app_assoc. reflexivity.
Qed.

Lemma script_fetch_run (sv : Script.services) (self : Script.pipeline)
  (limit : nat) (w : Script.world) :
  Script.fetch_stories sv self limit w =
  match snd (hot_listing sv self limit) with
  | Some e =>
      (Script.mkWorld (Script.store w)
         (Script.trace w ++
          [Script.CallSubredditHot (Script.subreddit_name self) limit;
           Script.LogFetchError e]),
       Raise e)
  | None =>
      (Script.mkWorld (Script.store w)
         (Script.trace w ++
          [Script.CallSubredditHot (Script.subreddit_name self) limit]),
       Ok (map Script.make_hot_story (fst (hot_listing sv self limit))))
  end.
Proof.
  unfold Script.fetch_stories, hot_listing, Script.try_except, Script.bind,
    Script.emit, Script.lift, Script.raise.
  destruct (Script.subreddit_hot sv (Script.subreddit_name self) limit)
    as [subs failure].
  simpl. rewrite hot_loop_run. destruct failure; simpl; [|reflexivity].
  rewrite <- app_assoc. reflexivity.
Qed.

Lemma script_upload_run (sv : Script.services) (self : Script.pipeline)
  (stories : list Script.hot_story) (w : Script.world) :
  Script.upload_to_s3 sv self stories w =
  match Script.put_object sv (Script.bucket_name self) (script_key sv self)
  with
  | Ok _ =>
      (Script.mkWorld (<[script_key sv self := stories]> (Script.store w))
         (Script.trace w ++
          [Script.CallPutObject (Script.bucket_name self)
             (script_key sv self) stories]),
       Ok tt)
  | Raise e =>
      (Script.mkWorld (Script.store w)
         (Script.trace w ++
          [Script.CallPutObject (Script.bucket_name self)
             (script_key sv self) stories;
           Script.LogUploadError e]),
       Raise e)
  end.
Proof.
  unfold Script.upload_to_s3, script_key, Script.try_except, Script.bind,
    Script.emit, Script.lift, Script.raise, Script.store_blob.
  simpl.
  destruct (Script.put_object sv (Script.bucket_name self) _) as [[]|e];
    simpl; [reflexivity|].
  rewrite <- app_assoc. reflexivity.
Qed.

(** X11: [fetch_stories] of the stand-alone pipeline returns one story per
    submission of the hot listing, in the order of the listing and without
    any filter (a removed post or one with an empty body is kept, unlike in
    the historic pull); when the listing raises, it logs the exception and
    raises it again, returning nothing of what it had collected. It never
    touches the store. *)
Theorem script_fetch_stories_keeps_all (sv : Script.services)
  (self : Script.pipeline) (limit : nat) (w : Script.world) :
  let r := Script.fetch_stories sv self limit w in
  Script.store (fst r) = Script.store w /\
  script_puts (Script.trace (fst r)) = script_puts (Script.trace w) /\
  match snd (hot_listing sv self limit) with
  | None =>
      snd r = Ok (map Script.make_hot_story (fst (hot_listing sv self limit)))
  | Some e =>
      snd r = Raise e /\ In (Script.LogFetchError e) (Script.trace (fst r))
  end.
Proof.
  intros r. subst r. rewrite script_fetch_run.
  destruct (snd (hot_listing sv self limit)) as [e|]; simpl.
  - split; [reflexivity|]. unfold script_puts. rewrite flat_map_app. simpl.
    rewrite app_nil_r. split; [reflexivity|]. split; [reflexivity|].
    apply in_or_app. right. right. left. reflexivity.
  - split; [reflexivity|]. unfold script_puts. rewrite flat_map_app. simpl.
    rewrite app_nil_r. split; reflexivity.
Qed.

(** X12: [upload_to_s3] of the stand-alone pipeline always calls
    [put_object], for an empty list of stories too. When the call returns,
    the stories are found under
    [raw/reddit_stories_<subreddit>_<YYYY-MM-DD>.json] and every other key
    is as before; when it raises, the exception is logged and raised again,
    and the store is as before. *)
Theorem script_upload_outcome (sv : Script.services) (self : Script.pipeline)
  (stories : list Script.hot_story) (w : Script.world) :
  let r := Script.upload_to_s3 sv self stories w in
  script_puts (Script.trace (fst r)) =
    script_puts (Script.trace w) ++ [(script_key sv self, stories)] /\
  match Script.put_object sv (Script.bucket_name self) (script_key sv self)
  with
  | Ok _ =>
      snd r = Ok tt /\
      Script.store (fst r) !! script_key sv self = Some stories /\
      forall k : string,
        k <> script_key sv self ->
        Script.store (fst r) !! k = Script.store w !! k
  | Raise e =>
      snd r = Raise e /\
      Script.store (fst r) = Script.store w /\
      In (Script.LogUploadError e) (Script.trace (fst r))
  end.
Proof.
  intros r. subst r. rewrite script_upload_run.
  destruct (Script.put_object sv (Script.bucket_name self) _) as [[]|e];
    simpl; unfold script_puts; rewrite flat_map_app; simpl.
  - split; [reflexivity|]. split; [reflexivity|].
    split; [apply lookup_insert_eq|].
    intros k Hk. apply lookup_insert_ne. congruence.
  - split; [reflexivity|]. split; [reflexivity|]. split; [reflexivity|].
    apply in_or_app. right. right. left. reflexivity.
Qed.

Lemma script_run_pipeline_run (sv : Script.services)
  (self : Script.pipeline) (w : Script.world) :
  Script.run_pipeline sv self w =
  match Script.fetch_stories sv self 100 w with
  | (w1, Raise e) =>
      (Script.mkWorld (Script.store w1)
         (Script.trace w1 ++ [Script.LogPipelineFailed e]), Raise e)
  | (w1, Ok stories) =>
      match Script.upload_to_s3 sv self stories w1 with
      | (w2, Raise e) =>
          (Script.mkWorld (Script.store w2)
             (Script.trace w2 ++ [Script.LogPipelineFailed e]), Raise e)
      | (w2, Ok a) => (w2, Ok a)
      end
  end.
Proof.
  unfold Script.run_pipeline, Script.try_except, Script.bind, Script.emit,
    Script.raise.
  destruct (Script.fetch_stories sv self 100 w) as [w1 [stories|e]];
    [|reflexivity].
  destruct (Script.upload_to_s3 sv self stories w1) as [w2 [a|e]];
    reflexivity.
Qed.

(** X13: [run_pipeline] of the stand-alone pipeline, unlike the Lambda one,
    lets every failure through. When the hot listing raises, nothing is
    handed to [put_object], the store is as before and the exception reaches
    the caller; otherwise the mapped listing, empty or not, is handed to
    [put_object] under today's key, and the pipeline ends normally with the
    stories stored exactly when that call returns, and raises its exception,
    with the store as before, when it does not. Every exception that reaches
    the caller has been logged as "Pipeline failed". *)
Theorem script_run_pipeline_outcome (sv : Script.services)
  (self : Script.pipeline) (w : Script.world) :
  let r := Script.run_pipeline sv self w in
  let stories := map Script.make_hot_story (fst (hot_listing sv self 100)) in
  match snd (hot_listing sv self 100) with
  | Some e =>
      snd r = Raise e /\
      Script.store (fst r) = Script.store w /\
      script_puts (Script.trace (fst r)) = script_puts (Script.trace w) /\
      In (Script.LogPipelineFailed e) (Script.trace (fst r))
  | None =>
      script_puts (Script.trace (fst r)) =
        script_puts (Script.trace w) ++ [(script_key sv self, stories)] /\
      match Script.put_object sv (Script.bucket_name self)
                              (script_key sv self) with
      | Ok _ =>
          snd r = Ok tt /\
          Script.store (fst r) !! script_key sv self = Some stories
      | Raise e =>
          snd r = Raise e /\
          Script.store (fst r) = Script.store w /\
          In (Script.LogPipelineFailed e) (Script.trace (fst r))
      end
  end.
Proof.
  intros r stories. subst r stories.
  rewrite script_run_pipeline_run, script_fetch_run.
  destruct (snd (hot_listing sv self 100)) as [e|].
  - simpl. split; [reflexivity|]. split; [reflexivity|].
    unfold script_puts. rewrite !flat_map_app. simpl. rewrite !app_nil_r.
    split; [reflexivity|].
    apply in_or_app. right. left. reflexivity.
  - rewrite script_upload_run.
    destruct (Script.put_object sv (Script.bucket_name self) _) as [[]|e];
      simpl; unfold script_puts; rewrite !flat_map_app; simpl;
      rewrite ?app_nil_r.
    + split; [reflexivity|]. split; [reflexivity|]. apply lookup_insert_eq.
    + split; [reflexivity|]. split; [reflexivity|].
      split; [reflexivity|].
      apply in_or_app. right. left. reflexivity.
Qed.

(** ** The horizon *)

(** X14: the LIVE listing is asked for exactly when the window starts less
    than 90 days before now, to the microsecond; a window that starts in
    the future is within the horizon, one that starts exactly 90 days ago is
    not. *)
Theorem live_pass_horizon (sv : services) (subreddit_name : string)
  (start end_ : datetime) (w : world) :
  sources_queried
    (trace (fst (Historic.live_pass sv subreddit_name start end_ w))) =
  sources_queried (trace w) ++
  (if now sv - start <? 90 * DAY then [LIVE] else []).
Proof.
  rewrite live_pass_run. simpl. unfold sources_queried.
  rewrite flat_map_app. f_equal. unfold in_horizon, timedelta_days.
  assert (((now sv - start) / DAY <? 90) = (now sv - start <? 90 * DAY))
    as ->.
  { destruct (Z.ltb_spec (now sv - start) (90 * DAY)) as [H|H].
    - apply Z.ltb_lt. apply Z.div_lt_upper_bound; unfold DAY in *; lia.
    - apply Z.ltb_ge. apply Z.div_le_lower_bound; unfold DAY in *; lia. }
  destruct (now sv - start <? 90 * DAY); reflexivity.
Qed.
